(** * BioImage.IO chatbot: script sandbox, router, registry and facade

    A shallow embedding of [scripts/start-bioimageio-chatbot.py] and of
    [bioimageio_chatbot/chatbot_extensions/docs_extension.py], with the
    properties of their specification stated and settled against it.

    Python objects live in a heap of mutable cells addressed by
    locations, so that two names bound to one list alias each other as
    they do in the interpreter.  Code that can raise returns an
    [outcome]; code that also touches the interpreter state runs in the
    state-and-exception monad [Py]. *)

From Stdlib Require Import ZArith QArith Ascii.
From stdpp Require Import base option list strings gmap fin_maps sorting.

Close Scope Q_scope.

(** ** Exceptions *)

(** The exception classes the two files can meet.  [PlainException] is
    the class [Exception] itself. *)
Inductive exc_class :=
  | SyntaxError | NameError | AttributeError | TypeError | ValueError
  | KeyError | IndexError | AssertionError | ValidationError
  | PlainException
  | SystemExit | KeyboardInterrupt.

(** [issubclass(c, Exception)]: in Python's hierarchy [SystemExit] and
    [KeyboardInterrupt] derive from [BaseException] directly. *)
Definition derives_Exception (c : exc_class) : bool :=
  match c with
  | SystemExit | KeyboardInterrupt => false
  | _ => true
  end.

(** A raised exception: its class and the text [str(e)] gives. *)
Record py_exc := PyExc { exc_cls : exc_class; exc_str : string }.

Inductive outcome (A : Type) :=
  | Returned (a : A)
  | Raised (e : py_exc).
Arguments Returned {A} a.
Arguments Raised {A} e.

Global Instance outcome_ret : MRet outcome := @Returned.
Global Instance outcome_bind : MBind outcome := λ A B f m,
  match m with
  | Returned a => f a
  | Raised e => Raised e
  end.

Definition is_Returned {A} (o : outcome A) : bool :=
  match o with Returned _ => true | Raised _ => false end.

(** [assert cond, msg] *)
Definition py_assert (cond : bool) (msg : string) : outcome unit :=
  if cond then Returned tt else Raised (PyExc AssertionError msg).

(** ** Dicts built by the code itself

    A dict keeps its keys in insertion order and [for k, v in d.items()]
    visits them in that order; assigning to a key that is present keeps
    its place.  Such dicts do not escape the function that builds them,
    so they are values, not heap cells. *)

Definition pydict (V : Type) : Type := list (string * V).

Fixpoint dict_set {V} (k : string) (v : V) (d : pydict V) : pydict V :=
  match d with
  | [] => [(k, v)]
  | (k', v') :: rest =>
      if decide (k = k') then (k, v) :: rest else (k', v') :: dict_set k v rest
  end.

Fixpoint dict_get {V} (k : string) (d : pydict V) : option V :=
  match d with
  | [] => None
  | (k', v') :: rest => if decide (k = k') then Some v' else dict_get k rest
  end.

(** [d[k]] *)
Definition dict_getitem {V} (d : pydict V) (k : string) : outcome V :=
  match dict_get k d with
  | Some v => Returned v
  | None => Raised (PyExc KeyError ("'" +:+ k +:+ "'"))
  end.

(** [{key(x): val(x) for x in xs}] where [val] may raise. *)
Fixpoint dict_comprehension {X V} (key : X → string) (val : X → outcome V)
    (xs : list X) (acc : pydict V) : outcome (pydict V) :=
  match xs with
  | [] => Returned acc
  | x :: rest => v ← val x; dict_comprehension key val rest (dict_set (key x) v acc)
  end.

(** [for x in xs: body(x)] *)
Fixpoint for_each {X} (body : X → outcome unit) (xs : list X) : outcome unit :=
  match xs with
  | [] => Returned tt
  | x :: rest => body x;; for_each body rest
  end.

(** [xs[i]] for [i ≥ 0], and [xs[-1]]. *)
Definition list_getitem {X} (xs : list X) (i : nat) : outcome X :=
  match xs !! i with
  | Some x => Returned x
  | None => Raised (PyExc IndexError "list index out of range")
  end.

Definition list_getitem_last {X} (xs : list X) : outcome X :=
  match last xs with
  | Some x => Returned x
  | None => Raised (PyExc IndexError "list index out of range")
  end.

(** The truth value of a string, and [a or b] for an optional string
    [a]: [None] and the empty string are both false. *)
Definition str_truthy (s : string) : bool := negb (String.eqb s "").

Definition opt_str_or (a : option string) (b : string) : string :=
  match a with
  | Some s => if str_truthy s then s else b
  | None => b
  end.

(** ** Values, objects and the interpreter state *)

Definition loc := nat.

(** A value is immediate or a reference to a heap object.  [VBuiltin]
    is a function or class of the [builtins] module, by its name;
    nothing below calls one. *)
Inductive value :=
  | VNone
  | VInt (z : Z)
  | VStr (s : string)
  | VRef (l : loc)
  | VBuiltin (name : string).

(** Heap objects: lists and dicts (string keys), the in-memory text
    buffer [io.StringIO], open or closed, and a text stream of the
    process itself (what [sys.stdout] is before any redirection). *)
Inductive obj :=
  | OList (items : list value)
  | ODict (entries : gmap string value)
  | OStringIO (buf : string)
  | OClosedStringIO
  | OTextIO (written : string).

(** [type(o).__name__] as error messages print it. *)
Definition type_name (o : obj) : string :=
  match o with
  | OList _ => "list"
  | ODict _ => "dict"
  | OStringIO _ | OClosedStringIO => "_io.StringIO"
  | OTextIO _ => "_io.TextIOWrapper"
  end.

Definition value_type_name (v : value) : string :=
  match v with
  | VNone => "NoneType"
  | VInt _ => "int"
  | VStr _ => "str"
  | VRef _ => "object"
  | VBuiltin _ => "builtin_function_or_method"
  end.

(** The [AttributeError] of [x.attr] where the type of [x] has no
    such attribute. *)
Definition no_attribute (type attr : string) : py_exc :=
  PyExc AttributeError
    ("'" +:+ type +:+ "' object has no attribute '" +:+ attr +:+ "'").

Definition closed_file : py_exc := PyExc ValueError "I/O operation on closed file".

(** What running code can reach of the interpreter: the two module
    attributes [sys.stdout] and [sys.stderr], and the heap. *)
Record Interp := mkInterp {
  interp_stdout : loc;
  interp_stderr : loc;
  interp_heap : gmap loc obj
}.

(** ** Scripts

    [exec(script, local_vars)] compiles the script text and runs it with
    [local_vars] as its namespace.  A script is represented by what the
    compiler makes of it: a syntax error, or a sequence of statements.
    The statements that the properties below single out have a form of
    their own: output on the two streams, binding a name, appending to
    a list reached through a name, and raising.  Any other statement,
    or block of statements, is [SOther]: it is given by what running it
    in a namespace does to the interpreter, which can be anything
    (rebinding or closing [sys.stdout], writing to another stream,
    changing an object it reaches by other means than a name).  A run
    that does not end has no such effect and is not represented. *)

Inductive expr :=
  | ENone                       (* None *)
  | EInt (z : Z)                (* an integer literal *)
  | EStr (s : string)           (* a string literal *)
  | EName (x : string)          (* a name *)
  | ENewList.                   (* [] *)

Inductive stmt :=
  | SPrint (s : string)                  (* print("s"), print being the builtin *)
  | SWriteErr (s : string)               (* sys.stderr.write("s"), sys being imported *)
  | SAssign (x : string) (e : expr)      (* x = e *)
  | SAppend (x : string) (e : expr)      (* x.append(e) *)
  | SRaise (c : exc_class) (msg : string) (* raise c("msg"); str(e) is msg *)
  | SOther (effect : loc → Interp → outcome unit * Interp).

Inductive py_script :=
  | Unparsable (msg : string)
  | Program (body : list stmt).

(** ** The collaborators: vector store and language model

    A langchain [Document], and a [FAISS] store reduced to what the code
    reads of it, the dict [docstore._dict] of its documents.  The search
    itself and the language model are parameters of the code below. *)

Module Langchain.

Record Document := mkDocument {
  page_content : string;
  metadata : gmap string value
}.

Record FAISS := mkFAISS {
  docstore_dict : gmap string Document
}.

End Langchain.
Export Langchain.

(** The two output schemas [role.aask] is called with. *)
Inductive response_schema :=
  | RequestUnion     (* Union[DirectResponse, DocumentRetrievalInput, ModelZooInfoScript] *)
  | FinalResponseSchema.

(** The calls the router makes to its collaborators, recorded in the
    order they are made. *)
Inductive call :=
  | LLMCall (expects : response_schema)
  | RegistryLookup (channel : string)
  | SimilaritySearch (store : FAISS) (query : string) (k : nat)
  | ScriptRun (script : py_script).

(** The part of the interpreter the code reads and writes: the two
    module attributes [sys.stdout] and [sys.stderr], the location of
    the dict of the [builtins] module, and the heap; and the record of
    [calls], which no code reads. *)
Record World := mkWorld {
  sys_stdout : loc;
  sys_stderr : loc;
  builtins : loc;
  heap : gmap loc obj;
  calls : list call
}.

Definition set_sys_stdout (l : loc) (w : World) : World :=
  mkWorld l (sys_stderr w) (builtins w) (heap w) (calls w).
Definition set_sys_stderr (l : loc) (w : World) : World :=
  mkWorld (sys_stdout w) l (builtins w) (heap w) (calls w).
Definition set_heap (h : gmap loc obj) (w : World) : World :=
  mkWorld (sys_stdout w) (sys_stderr w) (builtins w) h (calls w).
Definition record_call (c : call) (w : World) : World :=
  mkWorld (sys_stdout w) (sys_stderr w) (builtins w) (heap w) (calls w ++ [c]).

(** The interpreter as running code sees it, and the state after such
    code has changed it. *)
Definition interp_of (w : World) : Interp :=
  mkInterp (sys_stdout w) (sys_stderr w) (heap w).
Definition with_interp (i : Interp) (w : World) : World :=
  mkWorld (interp_stdout i) (interp_stderr i) (builtins w) (interp_heap i) (calls w).

(** ** The monad of Python code *)

Definition Py (A : Type) : Type := World → outcome A * World.

Global Instance Py_ret : MRet Py := λ A a w, (Returned a, w).
Global Instance Py_bind : MBind Py := λ A B f m w,
  match m w with
  | (Returned a, w') => f a w'
  | (Raised e, w') => (Raised e, w')
  end.

Definition py_raise {A} (c : exc_class) (msg : string) : Py A :=
  λ w, (Raised (PyExc c msg), w).

Definition lift {A} (o : outcome A) : Py A := λ w, (o, w).

Definition log_call (c : call) : Py unit := λ w, (Returned tt, record_call c w).

(** [try: body  except Exception as e: handler(e)]: only exceptions
    deriving from [Exception] reach the handler, any other passes. *)
Definition try_except_Exception {A} (body : Py A) (handler : py_exc → Py A) : Py A :=
  λ w,
  match body w with
  | (Returned a, w') => (Returned a, w')
  | (Raised e, w') =>
      if derives_Exception (exc_cls e) then handler e w' else (Raised e, w')
  end.

(** [try: body  finally: final]: [final] runs on every way out of
    [body], whether it returned or raised; the outcome of [body] stands
    unless [final] itself raises. *)
Definition try_finally {A} (body : Py A) (final : Py unit) : Py A :=
  λ w,
  let '(r, w') := body w in
  match final w' with
  | (Returned _, w'') => (r, w'')
  | (Raised e, w'') => (Raised e, w'')
  end.

(** Reading and assigning [sys.stdout] and [sys.stderr]. *)
Definition get_sys_stdout : Py loc := λ w, (Returned (sys_stdout w), w).
Definition get_sys_stderr : Py loc := λ w, (Returned (sys_stderr w), w).
Definition put_sys_stdout (l : loc) : Py unit := λ w, (Returned tt, set_sys_stdout l w).
Definition put_sys_stderr (l : loc) : Py unit := λ w, (Returned tt, set_sys_stderr l w).

(** Allocation of a new object at a location the heap does not use. *)
Definition alloc (o : obj) : Py loc :=
  λ w, let l := fresh (dom (heap w)) in
       (Returned l, set_heap (<[l := o]> (heap w)) w).

(** The error of [x.attr] for an object without that attribute. *)
Definition attribute_error (o : option obj) (attr : string) : py_exc :=
  no_attribute (from_option type_name "object" o) attr.

(** [stream.write(s)] *)
Definition py_write (stream : loc) (s : string) : Py unit :=
  λ w,
  match heap w !! stream with
  | Some (OStringIO b) => (Returned tt, set_heap (<[stream := OStringIO (b +:+ s)]> (heap w)) w)
  | Some (OTextIO b) => (Returned tt, set_heap (<[stream := OTextIO (b +:+ s)]> (heap w)) w)
  | Some OClosedStringIO => (Raised closed_file, w)
  | o => (Raised (attribute_error o "write"), w)
  end.

(** [stream.getvalue()], defined by [io.StringIO] only. *)
Definition getvalue (stream : loc) : Py string :=
  λ w,
  match heap w !! stream with
  | Some (OStringIO b) => (Returned b, w)
  | Some OClosedStringIO => (Raised closed_file, w)
  | o => (Raised (attribute_error o "getvalue"), w)
  end.

(** [d.copy()]: on a dict, a new dict with the same entries, the
    values themselves shared with [d] (a shallow copy); on a list, a
    new list likewise; the streams have no such method. *)
Definition dict_copy (d : loc) : Py loc :=
  λ w,
  match heap w !! d with
  | Some (ODict entries) => alloc (ODict entries) w
  | Some (OList items) => alloc (OList items) w
  | o => (Raised (attribute_error o "copy"), w)
  end.

(** ** Running a script *)

(** The error of [exec] for a namespace that is not a dict. *)
Definition globals_error (o : option obj) : py_exc :=
  PyExc TypeError
    ("exec() globals must be a dict, not " +:+ from_option type_name "object" o).

Definition name_error (x : string) : py_exc :=
  PyExc NameError ("name '" +:+ x +:+ "' is not defined").

(** [exec] binds [__builtins__] in a namespace that has no such key:
    to the dict of the [builtins] module. *)
Definition bind_builtins (ns : loc) : Py unit :=
  λ w,
  match heap w !! ns with
  | Some (ODict entries) =>
      match entries !! "__builtins__" with
      | Some _ => (Returned tt, w)
      | None =>
          (Returned tt,
           set_heap (<[ns := ODict (<["__builtins__" := VRef (builtins w)]> entries)]> (heap w))
             w)
      end
  | o => (Raised (globals_error o), w)
  end.

(** Name lookup: in the namespace dict at [ns], then in the dict its
    [__builtins__] refers to. *)
Definition lookup_name (ns : loc) (x : string) : Py value :=
  λ w,
  match heap w !! ns with
  | Some (ODict entries) =>
      match entries !! x with
      | Some v => (Returned v, w)
      | None =>
          match entries !! "__builtins__" with
          | Some (VRef b) =>
              match heap w !! b with
              | Some (ODict names) =>
                  match names !! x with
                  | Some v => (Returned v, w)
                  | None => (Raised (name_error x), w)
                  end
              | _ => (Raised (name_error x), w)
              end
          | _ => (Raised (name_error x), w)
          end
      end
  | o => (Raised (globals_error o), w)
  end.

Definition eval_expr (ns : loc) (e : expr) : Py value :=
  match e with
  | ENone => mret VNone
  | EInt z => mret (VInt z)
  | EStr s => mret (VStr s)
  | EName x => lookup_name ns x
  | ENewList => l ← alloc (OList []); mret (VRef l)
  end.

(** [x = v] in the namespace at [ns]. *)
Definition bind_name (ns : loc) (x : string) (v : value) : Py unit :=
  λ w,
  match heap w !! ns with
  | Some (ODict entries) =>
      (Returned tt, set_heap (<[ns := ODict (<[x := v]> entries)]> (heap w)) w)
  | o => (Raised (globals_error o), w)
  end.

(** [target.append(v)]: defined by lists, and it changes the list
    object itself, for every name that refers to it. *)
Definition list_append (target : value) (v : value) : Py unit :=
  λ w,
  match target with
  | VRef l =>
      match heap w !! l with
      | Some (OList items) =>
          (Returned tt, set_heap (<[l := OList (items ++ [v])]> (heap w)) w)
      | o => (Raised (attribute_error o "append"), w)
      end
  | _ => (Raised (no_attribute (value_type_name target) "append"), w)
  end.

Definition newline : string := String (Ascii.ascii_of_nat 10) "".

(** [print(text)] writes the text and a newline to whatever
    [sys.stdout] is at that moment. *)
Definition py_print (text : string) : Py unit :=
  out ← get_sys_stdout; py_write out (text +:+ newline).

Definition exec_stmt (ns : loc) (s : stmt) : Py unit :=
  match s with
  | SPrint text => py_print text
  | SWriteErr text => err ← get_sys_stderr; py_write err text
  | SAssign x e => v ← eval_expr ns e; bind_name ns x v
  | SAppend x e => target ← lookup_name ns x; v ← eval_expr ns e; list_append target v
  | SRaise c msg => py_raise c msg
  | SOther effect => λ w, let '(r, i) := effect ns (interp_of w) in (r, with_interp i w)
  end.

Fixpoint exec_body (ns : loc) (body : list stmt) : Py unit :=
  match body with
  | [] => mret tt
  | s :: rest => exec_stmt ns s;; exec_body ns rest
  end.

(** [exec(script, ns)]: the namespace is checked and given its
    [__builtins__], then the script is compiled and run. *)
Definition exec (script : py_script) (ns : loc) : Py unit :=
  bind_builtins ns;;
  match script with
  | Unparsable msg => py_raise SyntaxError msg
  | Program body => exec_body ns body
  end.

(** ** [scripts/start-bioimageio-chatbot.py] *)

Module StartScript.

(** The dict [execute_code] returns. *)
Record ScriptResult := mkResult { stdout : string; stderr : string }.

(** [execute_code(script, context=None)].  [context] is the location of
    the caller's dict, or [None]. *)
Definition execute_code (script : py_script) (context : option loc) : Py ScriptResult :=
  context ← match context with
            | Some c => mret c
            | None => alloc (ODict ∅)
            end;
  original_stdout ← get_sys_stdout;
  original_stderr ← get_sys_stderr;
  out ← alloc (OStringIO "");
  put_sys_stdout out;;
  err ← alloc (OStringIO "");
  put_sys_stderr err;;
  try_finally
    (try_except_Exception
       (local_vars ← dict_copy context;
        exec script local_vars;;
        stdout_output ← (get_sys_stdout ≫= getvalue);
        stderr_output ← (get_sys_stderr ≫= getvalue);
        mret (mkResult stdout_output stderr_output))
       (λ e, mret (mkResult "" (exc_str e))))
    (put_sys_stdout original_stdout;;
     put_sys_stderr original_stderr).

(** *** The pydantic models *)

Record UserProfile := mkUserProfile {
  name : string;
  occupation : string;
  background : string
}.

Record QuestionWithHistory := mkQuestionWithHistory {
  question : string;
  chat_history : option (list (gmap string string));
  user_profile : option UserProfile;
  channel_id : option string
}.

(** What [role.aask(inputs, Union[DirectResponse, DocumentRetrievalInput,
    ModelZooInfoScript])] returns. *)
Inductive request :=
  | DirectResponse (response : string)
  | DocumentRetrievalInput (query request user_info database_id : string)
  | ModelZooInfoScript (script : py_script) (request user_info : string).

(** What the second [role.aask(..., FinalResponse)] is given. *)
Inductive synthesis_input :=
  | DocumentSearchInput (user_question : string) (relevant_context : list string)
      (user_info : string)
  | ModelZooInfoScriptResults (stdout stderr request user_info : string).

Record FinalResponse := mkFinalResponse { response : string }.

(** The items of the list [inputs] of [respond_to_user]. *)
Inductive input_item :=
  | InProfile (p : option UserProfile)
  | InMessage (m : gmap string string)
  | InQuestion (q : string).

(** A [Role] is the language model behind [role.aask], one function per
    output schema it is asked for. *)
Record Role := mkRole {
  aask_request : list input_item → outcome request;
  aask_final : synthesis_input → outcome FinalResponse
}.

Record Message := mkMessage { content : string }.

(** One entry of [MANIFEST['collections']]. *)
Record Collection := mkCollection {
  collection_id : string;            (* collection['id'] *)
  collection_name : string;          (* collection['name'] *)
  collection_description : string;   (* collection['description'] *)
  collection_base_url : option string
}.

(** [UserProfile.parse_obj(obj)]: [obj] must be a dict holding the three
    fields within their [max_length]; [None] is not a dict. *)
Definition UserProfile_parse_obj (obj : option (gmap string string)) : outcome UserProfile :=
  match obj with
  | None => Raised (PyExc ValidationError "UserProfile expected dict not NoneType")
  | Some d =>
      match d !! "name", d !! "occupation", d !! "background" with
      | Some n, Some o, Some b =>
          if (String.length n <=? 32)%nat && (String.length o <=? 128)%nat
             && (String.length b <=? 256)%nat
          then Returned (mkUserProfile n o b)
          else Raised (PyExc ValidationError "ensure this value has at most the allowed characters")
      | _, _, _ => Raised (PyExc ValidationError "field required")
      end
  end.

(** [list(xs)] for an optional list: [None] is not iterable. *)
Definition list_of_optional {X} (xs : option (list X)) : outcome (list X) :=
  match xs with
  | Some l => Returned l
  | None => Raised (PyExc TypeError "'NoneType' object is not iterable")
  end.

(** [repr] of a list of strings, for names without quotes or escapes. *)
Definition repr_str_list (l : list string) : string :=
  "[" +:+ String.concat ", " ((λ s, "'" +:+ s +:+ "'") <$> l) +:+ "]".

Section Service.

(** The module constants [MANIFEST] and [DB_PATH], the loader
    [FAISS.load_local] (by folder and index name) and the search
    [docs_store.asimilarity_search(query, k=k)]. *)
Variable MANIFEST_collections : list Collection.
Variable DB_PATH : string.
Variable FAISS_load_local : string → string → outcome FAISS.
Variable asimilarity_search : FAISS → string → nat → outcome (list Document).

Definition load_docs_store (db_path collection_name : string) : outcome FAISS :=
  FAISS_load_local db_path collection_name.

(** [load_knowledge_base()].  The [print] of the loop is a log line
    and is left out. *)
Definition load_knowledge_base : outcome (pydict FAISS) :=
  let channel_ids := collection_id <$> MANIFEST_collections in
  docs_store_dict ← dict_comprehension (λ channel, channel)
                      (λ channel, load_docs_store DB_PATH channel) channel_ids [];
  for_each (λ '(name, docs_store),
              let length := size (docstore_dict docs_store) in
              py_assert (0 <? length)%nat
                ("Please make sure the docs store " +:+ name +:+ " is not empty."))
           docs_store_dict;;
  mret docs_store_dict.

Section CustomerService.

(** What [create_customer_service] binds for its inner function:
    the registry and the location of the list [resource_items]. *)
Variable docs_store_dict : pydict FAISS.
Variable resource_items : loc.

(** [respond_to_user(question_with_history, role)].  The two [print]
    calls of the script branch are log lines and are left out; the
    worker the script runs on is not modelled. *)
Definition respond_to_user (question_with_history : QuestionWithHistory)
    (role : Role) : Py string :=
  history ← lift (list_of_optional (chat_history question_with_history));
  let inputs := [InProfile (user_profile question_with_history)]
                ++ (InMessage <$> history)
                ++ [InQuestion (question question_with_history)] in
  log_call (LLMCall RequestUnion);;
  req ← lift (aask_request role inputs);
  match req with
  | DirectResponse response => mret response
  | DocumentRetrievalInput query request user_info database_id =>
      let selected_channel :=
        opt_str_or (channel_id question_with_history) database_id in
      log_call (RegistryLookup selected_channel);;
      docs_store ← lift (dict_getitem docs_store_dict selected_channel);
      log_call (SimilaritySearch docs_store query 3);;
      relevant_docs ← lift (asimilarity_search docs_store query 3);
      let raw_docs := page_content <$> relevant_docs in
      let search_input := DocumentSearchInput request raw_docs user_info in
      log_call (LLMCall FinalResponseSchema);;
      response ← lift (aask_final role search_input);
      mret (StartScript.response response)
  | ModelZooInfoScript script request user_info =>
      context ← alloc (ODict {[ "resources" := VRef resource_items ]});
      log_call (ScriptRun script);;
      result ← execute_code script (Some context);
      log_call (LLMCall FinalResponseSchema);;
      response ← lift (aask_final role
                   (ModelZooInfoScriptResults (stdout result) (stderr result)
                      request user_info));
      mret (StartScript.response response)
  end.

End CustomerService.

Section Server.

(** [customer_service.handle(Message(...))], the entry of the agent
    framework into the role's action. *)
Variable handle : QuestionWithHistory → Py (list Message).

Definition channel_id_by_name : pydict string :=
  fold_left (λ acc collection,
               dict_set (collection_name collection) (collection_id collection) acc)
            MANIFEST_collections [].

(** [chat(text, chat_history, user_profile=None, channel=None)] of
    [start_server]; the closing [print] is a log line. *)
Definition chat (text : string) (chat_history : option (list (gmap string string)))
    (user_profile : option (gmap string string)) (channel : option string)
    : Py string :=
  channel_id ←
    lift (match channel with
          | Some channel =>
              if str_truthy channel then
                py_assert (bool_decide (is_Some (dict_get channel channel_id_by_name)))
                  ("Channel " +:+ channel +:+ " is not found, available channels are "
                   +:+ repr_str_list (fst <$> channel_id_by_name));;
                c ← dict_getitem channel_id_by_name channel;
                mret (Some c)
              else mret None
          | None => mret None
          end);
  profile ← lift (UserProfile_parse_obj user_profile);
  let m := mkQuestionWithHistory text chat_history (Some profile) channel_id in
  response ← handle m;
  last ← lift (list_getitem_last response);
  mret (content last).

End Server.

End Service.

End StartScript.

(** ** [bioimageio_chatbot/chatbot_extensions/docs_extension.py] *)

Module DocsExtension.

(** Relevance scores are floats of which only the order is used; they
    are taken in the rationals. *)
Record DocWithScore := mkDocWithScore {
  doc : string;
  score : Q;
  metadata : gmap string value;
  base_url : option string
}.

(** The fields of the request [run_extension] reads or passes on. *)
Record DocumentRetrievalInput := mkDocumentRetrievalInput {
  request : string;
  preliminary_response : string;
  query : string;
  user_info : option string
}.

(** [s[:n]] *)
Fixpoint str_take (n : nat) (s : string) : string :=
  match n, s with
  | S n, String a s => String a (str_take n s)
  | _, _ => ""
  end.

(** [s.replace(old, new)] where [old] and [new] are one character
    each: every occurrence is replaced, nothing else moves. *)
Fixpoint str_replace_char (old new : Ascii.ascii) (s : string) : string :=
  match s with
  | EmptyString => EmptyString
  | String c s =>
      String (if Ascii.eqb c old then new else c) (str_replace_char old new s)
  end.

(** [get_schema(channel_id)], as far as the name it gives the model
    class, [DocumentRetrievalInput.__name__]; the schema dict derived
    from the class is left out. *)
Definition get_schema (channel_id : string) : string :=
  str_replace_char "-"%char "_"%char (str_replace_char "."%char "_"%char channel_id).

(** [ChatbotExtension] is declared in [bioimageio_chatbot.utils],
    outside these files; it is taken as the record of the four fields
    [get_extensions] passes to it.  The two [partial] objects are the
    functions applied to the collection id. *)
Record ChatbotExtension := mkChatbotExtension {
  extension_name : string;
  extension_description : string;
  extension_get_schema : string;
  extension_execute : DocumentRetrievalInput → outcome (list DocWithScore)
}.

Section Extension.

(** [get_manifest()["collections"]] and the module-level registry
    [docs_store_dict], both built by modules outside these files, and
    the search [asimilarity_search_with_relevance_scores]. *)
Variable collections : list StartScript.Collection.
Variable docs_store_dict : pydict FAISS.
Variable asimilarity_search_with_relevance_scores :
  FAISS → string → nat → outcome (list (Document * Q)).

(** The argument of the closing [print]: an f-string over the first
    three documents, evaluated left to right.  The text is built up to
    the rendering of the scores, which is left out. *)
Definition retrieved_documents_line (docs_with_score : list DocWithScore) : outcome string :=
  d0 ← list_getitem docs_with_score 0;
  d1 ← list_getitem docs_with_score 1;
  d2 ← list_getitem docs_with_score 2;
  mret ("Retrieved documents:" +:+ newline
        +:+ str_take 20 (doc d0) +:+ "..." +:+ newline
        +:+ str_take 20 (doc d1) +:+ "..." +:+ newline
        +:+ str_take 20 (doc d2) +:+ "...").

(** [run_extension(channel_id, req)].  A [print] is its argument
    evaluated, then a log line, which is left out. *)
Definition run_extension (channel_id : string) (req : DocumentRetrievalInput)
    : outcome (list DocWithScore) :=
  docs_store ← dict_getitem docs_store_dict channel_id;
  let collection_info_dict :=
    fold_left (λ acc collection, dict_set (StartScript.collection_id collection) collection acc)
              collections [] in
  collection_info ← dict_getitem collection_info_dict channel_id;
  let base_url := StartScript.collection_base_url collection_info in
  results_with_scores ←
    asimilarity_search_with_relevance_scores docs_store (query req) 3;
  let docs_with_score :=
    (λ '(doc, score),
       mkDocWithScore (page_content doc) score (Langchain.metadata doc) base_url)
    <$> results_with_scores in
  retrieved_documents_line docs_with_score;;
  mret docs_with_score.

(** [get_extensions()] *)
Definition get_extensions : list ChatbotExtension :=
  (λ collection,
     mkChatbotExtension
       (StartScript.collection_id collection)
       (StartScript.collection_description collection)
       (get_schema (StartScript.collection_id collection))
       (run_extension (StartScript.collection_id collection)))
  <$> collections.

End Extension.

End DocsExtension.

(** * Specification

    The vocabulary of the properties: what it means for a script to
    fault or to complete, what it printed, which channel a request
    selects; the sentences of the specification that the code does not
    satisfy, as they are written; and the concrete inputs used below. *)

Module Spec.
Import StartScript.

(** ** The sandbox *)

(** [execute_code] up to the point where the script starts: the
    redirection of the two streams and the copy of the bindings.  Its
    result is the namespace the script runs in. *)
Definition sandbox_entry (context : option loc) : Py loc :=
  context ← match context with
            | Some c => mret c
            | None => alloc (ODict ∅)
            end;
  out ← alloc (OStringIO "");
  put_sys_stdout out;;
  err ← alloc (OStringIO "");
  put_sys_stderr err;;
  dict_copy context.

(** The script run inside [execute_code]: it faults when this raises
    and completes when this returns. *)
Definition run_script (script : py_script) (context : option loc) : Py unit :=
  ns ← sandbox_entry context; exec script ns.

(** What a statement, and a script that runs to its end, writes on
    each stream. *)
Definition stmt_stdout (s : stmt) : string :=
  match s with SPrint text => text +:+ newline | _ => "" end.
Definition stmt_stderr (s : stmt) : string :=
  match s with SWriteErr text => text | _ => "" end.

Definition printed_output (script : py_script) : string :=
  match script with
  | Program body => foldr (λ s acc, stmt_stdout s +:+ acc) "" body
  | Unparsable _ => ""
  end.
Definition error_output (script : py_script) : string :=
  match script with
  | Program body => foldr (λ s acc, stmt_stderr s +:+ acc) "" body
  | Unparsable _ => ""
  end.

(** The statements with a form of their own, and the scripts made of
    them: they reach objects through names only and write to the
    current [sys.stdout] and [sys.stderr] only. *)
Definition named (s : stmt) : bool :=
  match s with SOther _ => false | _ => true end.

Definition plain (script : py_script) : bool :=
  match script with
  | Program body => forallb named body
  | Unparsable _ => true
  end.

(** Statements that change an object in place, or may, and scripts
    without. *)
Definition in_place (s : stmt) : bool :=
  match s with SAppend _ _ | SOther _ => true | _ => false end.

Definition mutation_free (script : py_script) : bool :=
  match script with
  | Program body => forallb (λ s, negb (in_place s)) body
  | Unparsable _ => true
  end.

(** The [finally] clause, seen from the state [w] at the call. *)
Definition restore_streams (w w' : World) : World :=
  set_sys_stderr (sys_stderr w) (set_sys_stdout (sys_stdout w) w').

(** The context and the world after the redirection, before the try. *)
Definition entry_context (context : option loc) (w : World) : loc * World :=
  match context with
  | Some c => (c, w)
  | None => let l := fresh (dom (heap w)) in (l, set_heap (<[l := ODict ∅]> (heap w)) w)
  end.

Definition redirected (w : World) : World :=
  let out := fresh (dom (heap w)) in
  let w := set_sys_stdout out (set_heap (<[out := OStringIO ""]> (heap w)) w) in
  let err := fresh (dom (heap w)) in
  set_sys_stderr err (set_heap (<[err := OStringIO ""]> (heap w)) w).

(** The objects one named statement leaves as they are: every dict but
    the namespace, every list unless the statement mutates in place,
    every stream but the two current ones. *)
Definition untouched (ns : loc) (s : stmt) (w : World) (l : loc) (o : obj) : Prop :=
  named s = true
  ∧ match o with
    | ODict _ => l ≠ ns
    | OList _ => in_place s = false
    | OStringIO _ | OClosedStringIO | OTextIO _ => l ≠ sys_stdout w ∧ l ≠ sys_stderr w
    end.

Definition untouched_by (ns : loc) (body : list stmt) (w : World) (l : loc) (o : obj) : Prop :=
  forallb named body = true
  ∧ match o with
    | ODict _ => l ≠ ns
    | OList _ => mutation_free (Program body) = true
    | OStringIO _ | OClosedStringIO | OTextIO _ => l ≠ sys_stdout w ∧ l ≠ sys_stderr w
    end.

(** The caller passed no bindings, or a dict. *)
Definition context_is_dict (context : option loc) (w : World) : Prop :=
  match context with
  | Some c => ∃ entries, heap w !! c = Some (ODict entries)
  | None => True
  end.

(** What holds of the state [w1] in which a script starts to run in
    the namespace [ns], for a call made in the state [w]: the two
    streams are empty buffers of their own, and every object of [w] is
    as it was and is neither the namespace nor one of the buffers. *)
Definition at_entry (w : World) (ns : loc) (w1 : World) : Prop :=
  heap w1 !! sys_stdout w1 = Some (OStringIO "")
  ∧ heap w1 !! sys_stderr w1 = Some (OStringIO "")
  ∧ sys_stdout w1 ≠ sys_stderr w1
  ∧ ns ≠ sys_stdout w1
  ∧ ns ≠ sys_stderr w1
  ∧ calls w1 = calls w
  ∧ builtins w1 = builtins w
  ∧ ∀ l o, heap w !! l = Some o →
      heap w1 !! l = Some o ∧ l ≠ ns ∧ l ≠ sys_stdout w1 ∧ l ≠ sys_stderr w1.

(** "Any fault is caught and reported as non-empty stderr with empty
    stdout; a script that completes yields its printed output as stdout
    and an empty stderr; the call never raises." *)
Definition execute_contract_as_stated : Prop :=
  ∀ script context w,
    ∃ r, (execute_code script context w).1 = Returned r
      ∧ match (run_script script context w).1 with
        | Raised _ => stderr r ≠ "" ∧ stdout r = ""
        | Returned _ => stdout r = printed_output script ∧ stderr r = ""
        end.

(** "For a script that prints and then throws, stdout equals the output
    produced before the fault, and stderr is non-empty." *)
Definition output_before_fault_kept_as_stated : Prop :=
  ∀ outs c msg context w,
    outs ≠ [] → context_is_dict context w →
    ∃ r, (execute_code (Program ((SPrint <$> outs) ++ [SRaise c msg])) context w).1
         = Returned r
      ∧ stdout r = printed_output (Program (SPrint <$> outs))
      ∧ stderr r ≠ "".


(** ** The router *)

(** The list [inputs] of [respond_to_user]. *)
Definition classification_inputs (q : QuestionWithHistory)
    (history : list (gmap string string)) : list input_item :=
  [InProfile (user_profile q)] ++ (InMessage <$> history) ++ [InQuestion (question q)].

(** The channel a retrieval runs against: the context's [channel_id]
    when it is a non-empty string, the model's [database_id] when it is
    absent or empty. *)
Definition chosen_channel (q : QuestionWithHistory) (database_id selected : string) : Prop :=
  (∃ c, channel_id q = Some c ∧ c ≠ "" ∧ selected = c)
  ∨ ((channel_id q = None ∨ channel_id q = Some "") ∧ selected = database_id).

(** "When channel_id is set, lookup and search execute against
    channel_id, whatever database_id the model returned." *)
Definition channel_precedence_as_stated : Prop :=
  ∀ search docs_store_dict resource_items q role w history
    query request user_info database_id c,
    chat_history q = Some history →
    aask_request role (classification_inputs q history)
      = Returned (DocumentRetrievalInput query request user_info database_id) →
    channel_id q = Some c →
    ∃ rest,
      calls (respond_to_user search docs_store_dict resource_items q role w).2
      = calls w ++ [LLMCall RequestUnion; RegistryLookup c] ++ rest.

(** ** The facade *)

Definition profile_error : py_exc :=
  PyExc ValidationError "UserProfile expected dict not NoneType".

Definition unknown_channel_error (M : list Collection) (channel : string) : py_exc :=
  PyExc AssertionError
    ("Channel " +:+ channel +:+ " is not found, available channels are "
     +:+ repr_str_list (fst <$> channel_id_by_name M)).

(** A channel name was given and no collection has it. *)
Definition channel_unknown (M : list Collection) (channel : string) : bool :=
  str_truthy channel
  && negb (bool_decide (is_Some (dict_get channel (channel_id_by_name M)))).

(** ** Retrieval *)

(** The [DocWithScore] built from one search result. *)
Definition as_doc_with_score (base_url : option string) (r : Document * Q)
    : DocsExtension.DocWithScore :=
  DocsExtension.mkDocWithScore (page_content r.1) r.2 (Langchain.metadata r.1) base_url.

Definition index_error : py_exc := PyExc IndexError "list index out of range".



(** ** Concrete inputs *)

(** Some names of the [builtins] module. *)
Definition builtin_names : gmap string value :=
  {[ "len" := VBuiltin "len"; "print" := VBuiltin "print"; "sum" := VBuiltin "sum" ]}.

(** A process with its two streams, the builtins, and nothing else. *)
Definition quiet_world : World :=
  mkWorld 0 1 2
    (<[0 := OTextIO ""]> (<[1 := OTextIO ""]> (<[2 := ODict builtin_names]> ∅))) [].

(** A process holding the catalog list at 3 and, at 2, the bindings
    [{"resources": resource_items}]. *)
Definition catalog_world : World :=
  mkWorld 0 1 4
    (<[0 := OTextIO ""]> (<[1 := OTextIO ""]>
      (<[2 := ODict {[ "resources" := VRef 3 ]}]> (<[3 := OList [VStr "model"]]>
        (<[4 := ODict builtin_names]> ∅)))))
    [].

Definition manifest : list Collection :=
  [mkCollection "scikit-image" "scikit-image" "image processing in Python" None;
   mkCollection "bioimage.io" "bioimage.io" "the model zoo" (Some "https://bioimage.io/docs")].

Definition document (text : string) : Document := mkDocument text ∅.

Definition empty_store : FAISS := mkFAISS ∅.
Definition small_store : FAISS := mkFAISS {[ "0" := document "Thresholding" ]}.

(** A loader that finds every index non-empty, and one that finds the
    index of [bioimage.io] empty. *)
Definition load_full (folder index_name : string) : outcome FAISS := Returned small_store.
Definition load_one_empty (folder index_name : string) : outcome FAISS :=
  if String.eqb index_name "bioimage.io" then Returned empty_store else Returned small_store.

(** A ranking of four documents, and searches that return its first [k]
    entries, or its first two whatever [k] is. *)
Definition ranked : list (Document * Q) :=
  [(document "Thresholding", 9 # 10); (document "Watershed", 7 # 10);
   (document "Installation", 2 # 10); (document "Licence", 1 # 10)]%Q.

Definition search_ranked (store : FAISS) (query : string) (k : nat)
    : outcome (list (Document * Q)) := Returned (take k ranked).
Definition search_two (store : FAISS) (query : string) (k : nat)
    : outcome (list (Document * Q)) := Returned (take 2 ranked).
Definition search_docs (store : FAISS) (query : string) (k : nat)
    : outcome (list Document) := Returned (take k (fst <$> ranked)).



Definition registry : pydict FAISS :=
  [("scikit-image", small_store); ("bioimage.io", small_store)].

(** A model that asks for a retrieval in [bioimage.io], and one that
    answers directly. *)
Definition retrieval_role : Role :=
  mkRole (λ _, Returned (DocumentRetrievalInput "segment" "How to segment?" "" "bioimage.io"))
         (λ _, Returned (mkFinalResponse "Use a threshold.")).
Definition direct_role : Role :=
  mkRole (λ _, Returned (DirectResponse "4"))
         (λ _, Returned (mkFinalResponse "unused")).

Definition segment_question (channel_id : option string) : QuestionWithHistory :=
  mkQuestionWithHistory "How can I segment a cell image?" (Some []) None channel_id.

Definition segment_request : DocsExtension.DocumentRetrievalInput :=
  DocsExtension.mkDocumentRetrievalInput "How to segment?" "" "segment" None.

Definition echo_handle (m : QuestionWithHistory) : Py (list Message) :=
  mret [mkMessage (question m)].

(** ** More of the router *)


(** The second call to the model, on the outcome of a script. *)
Definition synthesis_of_script (role : Role) (out err request user_info : string)
    : outcome string :=
  final ← aask_final role (ModelZooInfoScriptResults out err request user_info);
  mret (response final).

(** ** Statements given by their effect *)

(** [sys.stdout = []] *)
Definition rebind_stdout : stmt :=
  SOther (λ ns i,
    let l := fresh (dom (interp_heap i)) in
    (Returned tt, mkInterp l (interp_stderr i) (<[l := OList []]> (interp_heap i)))).

(** [sys.stdout.close()] where [sys.stdout] is a text buffer, as it is
    for a script run by [execute_code]: the buffer drops its text. *)
Definition close_stdout : stmt :=
  SOther (λ ns i,
    match interp_heap i !! interp_stdout i with
    | Some (OStringIO _) =>
        (Returned tt,
         mkInterp (interp_stdout i) (interp_stderr i)
           (<[interp_stdout i := OClosedStringIO]> (interp_heap i)))
    | _ => (Returned tt, i)
    end).

(** [sys.__stdout__.write(text)] in a process whose own output stream
    is the object at [stream]. *)
Definition write_to (stream : loc) (text : string) : stmt :=
  SOther (λ ns i,
    match interp_heap i !! stream with
    | Some (OTextIO written) =>
        (Returned tt,
         mkInterp (interp_stdout i) (interp_stderr i)
           (<[stream := OTextIO (written +:+ text)]> (interp_heap i)))
    | _ => (Returned tt, i)
    end).

(** [sys._getframe(1).f_locals["context"].clear()], run under
    [execute_code] called with the dict at [context]: the frame of the
    caller of [exec] is that of [execute_code]. *)
Definition clear_bindings_of_caller (context : loc) : stmt :=
  SOther (λ ns i,
    match interp_heap i !! context with
    | Some (ODict _) =>
        (Returned tt,
         mkInterp (interp_stdout i) (interp_stderr i)
           (<[context := ODict ∅]> (interp_heap i)))
    | _ => (Returned tt, i)
    end).

(** ** More concrete inputs *)

(** A model that asks for [script] to be run and, given the outcome,
    answers with the two captured texts. *)
Definition script_role (script : py_script) : Role :=
  mkRole (λ _, Returned (ModelZooInfoScript script "How many models are there?" ""))
         (λ input, Returned (mkFinalResponse
                               match input with
                               | ModelZooInfoScriptResults out err _ _ => out +:+ err
                               | DocumentSearchInput _ _ _ => ""
                               end)).

Definition count_question : QuestionWithHistory :=
  mkQuestionWithHistory "How many models are there?" (Some []) None None.

Definition search_unavailable (store : FAISS) (query : string) (k : nat)
    : outcome (list Document) := Raised (PyExc ValueError "index unavailable").
Definition scored_search_unavailable (store : FAISS) (query : string) (k : nat)
    : outcome (list (Document * Q)) := Raised (PyExc ValueError "index unavailable").

(** A loader that does not find the index of [bioimage.io]. *)
Definition load_one_missing (folder index_name : string) : outcome FAISS :=
  if String.eqb index_name "bioimage.io"
  then Raised (PyExc ValueError "could not open bioimage.io.faiss")
  else Returned small_store.

Definition store_by_id (index_name : string) : FAISS :=
  if String.eqb index_name "bioimage.io" then empty_store else small_store.

(** A manifest whose channel names differ from the collection ids. *)
Definition named_manifest : list Collection :=
  [mkCollection "scikit-image" "Scikit Image" "image processing in Python" None;
   mkCollection "bioimage.io" "BioImage Model Zoo" "the model zoo"
     (Some "https://bioimage.io/docs")].

Definition lulu : gmap string string :=
  {[ "name" := "lulu"; "occupation" := "data scientist";
     "background" := "machine learning and AI" ]}.

End Spec.
Import Spec.

(** * Facts on the execution of scripts *)

Section ExecFacts.
Import StartScript.
Implicit Types (w : World) (ns l : loc) (s : stmt) (body : list stmt).

Lemma append_assoc (a b c : string) : (a +:+ b) +:+ c = a +:+ (b +:+ c).
Proof.
  induction a as [|x a IH]; [reflexivity|].
  change (String x ((a +:+ b) +:+ c) = String x (a +:+ (b +:+ c))).
  by rewrite IH.
Qed.

Lemma append_empty_r (a : string) : a +:+ "" = a.
Proof.
  induction a as [|x a IH]; [reflexivity|].
  change (String x (a +:+ "") = String x a).
  by rewrite IH.
Qed.

Lemma fresh_not_allocated w o : heap w !! fresh (dom (heap w)) = Some o → False.
Proof.
  intros H. apply (is_fresh (dom (heap w))). apply elem_of_dom. eauto.
Qed.

Ltac run_py :=
  repeat (unfold mbind, mret, Py_bind, Py_ret in *;
    cbn [set_heap set_sys_stdout set_sys_stderr record_call with_interp interp_of
         heap sys_stdout sys_stderr builtins calls
         interp_heap interp_stdout interp_stderr fst snd] in *;
    match goal with
    | H : (_, _) = (_, _) |- _ => injection H as <- <-
    | H : context [match ?x with _ => _ end] |- _ => destruct x eqn:?
    | |- context [match ?x with _ => _ end] => destruct x eqn:?
    | _ => progress (simplify_eq)
    end).

(** Name lookup reads the state and leaves it as it is. *)
Lemma lookup_name_ro ns x w : ∃ r, lookup_name ns x w = (r, w).
Proof. unfold lookup_name. repeat case_match; eauto. Qed.

Ltac open_stmt s e :=
  destruct s as [?text|?text|?x e|?x e|?c ?msg|?effect]; cbn [exec_stmt named];
  try (destruct e; cbn [eval_expr]);
  unfold py_print, mbind, mret, Py_bind, Py_ret, alloc;
  repeat match goal with
  | |- context [lookup_name ?ns ?x ?w] =>
      let r := fresh "r" in
      destruct (lookup_name_ro ns x w) as [[?v|?err] ->]
  end;
  unfold py_write, get_sys_stdout, get_sys_stderr, bind_name, list_append, py_raise.

Ltac fresh_absurd :=
  match goal with
  | H : heap ?w !! fresh (dom (heap ?w)) = Some ?o |- _ =>
      exact (False_rect _ (fresh_not_allocated w o H))
  end.

Ltac split_inserts :=
  repeat match goal with
  | H : <[_:=_]> _ !! _ = Some _ |- _ =>
      apply lookup_insert_Some in H as [[? ?]|[? H]]; simplify_eq
  | H : <[_:=_]> _ !! _ = None |- _ => apply lookup_insert_None in H as [H ?]
  end.

(** No statement reaches the record of calls or moves the builtins. *)
Lemma exec_stmt_calls ns s w r w' :
  exec_stmt ns s w = (r, w') → calls w' = calls w ∧ builtins w' = builtins w.
Proof. (open_stmt s e; intros; run_py; done). Qed.

Lemma exec_body_calls ns body w r w' :
  exec_body ns body w = (r, w') → calls w' = calls w ∧ builtins w' = builtins w.
Proof.
  revert w. induction body as [|s body IH]; intros w Hrun; cbn in Hrun.
  - by run_py.
  - unfold mbind, Py_bind in Hrun.
    destruct (exec_stmt ns s w) as [[[]|e] w1] eqn:Hs;
      apply exec_stmt_calls in Hs as (Hc & Hb).
    + apply IH in Hrun as (-> & ->). done.
    + by simplify_eq.
Qed.

Lemma exec_stmt_streams ns s w r w' :
  named s = true →
  exec_stmt ns s w = (r, w') →
  sys_stdout w' = sys_stdout w ∧ sys_stderr w' = sys_stderr w.
Proof. (open_stmt s e; intros Hn Hrun; try done; run_py; done). Qed.

Lemma exec_stmt_frame ns s w r w' l o :
  exec_stmt ns s w = (r, w') →
  heap w !! l = Some o →
  untouched ns s w l o →
  heap w' !! l = Some o.
Proof.
  (open_stmt s e; intros Hrun Hl [Hn Hun]; try done; run_py; try done).
  all: cbn [set_heap heap]; split_inserts.
  all: repeat (rewrite lookup_insert_ne; [|
         let E := fresh in intros E;
         first [ by (rewrite <- E in *; fresh_absurd)
               | by (cbn in *; simplify_eq; intuition congruence) ]]); try done.
Qed.

Lemma exec_stmt_buffers ns s w r w' b1 b2 :
  named s = true →
  exec_stmt ns s w = (r, w') →
  sys_stdout w ≠ sys_stderr w →
  heap w !! sys_stdout w = Some (OStringIO b1) →
  heap w !! sys_stderr w = Some (OStringIO b2) →
  heap w' !! sys_stdout w
    = Some (OStringIO (b1 +:+ (if is_Returned r then stmt_stdout s else "")))
  ∧ heap w' !! sys_stderr w
    = Some (OStringIO (b2 +:+ (if is_Returned r then stmt_stderr s else ""))).
Proof.
  (open_stmt s e; intros Hn Hrun Hne Hout Herr; try done; run_py; try done).
  all: cbn [set_heap heap is_Returned]; split_inserts; rewrite ?append_empty_r.
  all: split.
  all: repeat first [ rewrite lookup_insert_eq; done
                    | rewrite lookup_insert_ne; [|
         let E := fresh in intros E;
         first [ by (rewrite <- E in *; fresh_absurd)
               | congruence ]]]; try done.
Qed.

Lemma exec_body_streams ns body w r w' :
  forallb named body = true →
  exec_body ns body w = (r, w') →
  sys_stdout w' = sys_stdout w ∧ sys_stderr w' = sys_stderr w.
Proof.
  revert w. induction body as [|s body IH]; intros w Hall Hrun; cbn in Hrun.
  - by run_py.
  - cbn in Hall. apply andb_prop in Hall as [Hs Hall].
    unfold mbind, Py_bind in Hrun.
    destruct (exec_stmt ns s w) as [[[]|e] w1] eqn:Hstep;
      apply exec_stmt_streams in Hstep as (Ho & He); try done.
    + apply IH in Hrun as (-> & ->); done.
    + by simplify_eq.
Qed.

Lemma exec_body_frame ns body w r w' l o :
  exec_body ns body w = (r, w') →
  heap w !! l = Some o →
  untouched_by ns body w l o →
  heap w' !! l = Some o.
Proof.
  revert w. induction body as [|s body IH]; intros w Hrun Hl [Hall Hun]; cbn in Hrun.
  - by run_py.
  - cbn in Hall. apply andb_prop in Hall as [Hn Hall].
    unfold mbind, Py_bind in Hrun.
    assert (untouched ns s w l o ∧ untouched_by ns body w l o) as [Hs Hb].
    { unfold untouched, untouched_by.
      destruct o; cbn in *; try done. by apply andb_prop in Hun as [->%negb_true_iff ?]. }
    destruct (exec_stmt ns s w) as [[[]|e] w1] eqn:Hstep;
      pose proof (exec_stmt_frame _ _ _ _ _ _ _ Hstep Hl Hs) as Hl1;
      apply exec_stmt_streams in Hstep as (Ho & He); try done.
    + apply (IH w1); [done..|]. destruct Hb as [? Hb]. split; [done|].
      destruct o; cbn in *; by rewrite ?Ho, ?He.
    + by simplify_eq.
Qed.

Lemma exec_body_buffers ns body w w' b1 b2 :
  forallb named body = true →
  exec_body ns body w = (Returned tt, w') →
  sys_stdout w ≠ sys_stderr w →
  heap w !! sys_stdout w = Some (OStringIO b1) →
  heap w !! sys_stderr w = Some (OStringIO b2) →
  heap w' !! sys_stdout w = Some (OStringIO (b1 +:+ printed_output (Program body)))
  ∧ heap w' !! sys_stderr w = Some (OStringIO (b2 +:+ error_output (Program body))).
Proof.
  revert w b1 b2. induction body as [|s body IH]; intros w b1 b2 Hall Hrun Hne Hout Herr;
    cbn in Hrun.
  - run_py. cbn. by rewrite !append_empty_r.
  - cbn in Hall. apply andb_prop in Hall as [Hn Hall].
    unfold mbind, Py_bind in Hrun.
    destruct (exec_stmt ns s w) as [[[]|e] w1] eqn:Hstep; [|done].
    destruct (exec_stmt_buffers _ _ _ _ _ _ _ Hn Hstep Hne Hout Herr) as [Hout1 Herr1].
    apply exec_stmt_streams in Hstep as (Ho & He); [|done].
    rewrite <- Ho, <- He in *.
    destruct (IH w1 _ _ Hall Hrun Hne Hout1 Herr1) as [-> ->].
    cbn. by rewrite !append_assoc.
Qed.

Lemma exec_body_prints_then_raise ns outs c msg rest w b :
  heap w !! sys_stdout w = Some (OStringIO b) →
  ∃ w', exec_body ns ((SPrint <$> outs) ++ SRaise c msg :: rest) w
        = (Raised (PyExc c msg), w').
Proof.
  revert w b. induction outs as [|text outs IH]; intros w b Hout; cbn.
  - eexists. reflexivity.
  - unfold py_print, get_sys_stdout, py_write, mbind, Py_bind. rewrite Hout.
    eapply IH. cbn. apply lookup_insert_eq.
Qed.

(** What [exec] does to the namespace before the script runs. *)
Lemma bind_builtins_spec ns w r w' :
  bind_builtins ns w = (r, w') →
  sys_stdout w' = sys_stdout w ∧ sys_stderr w' = sys_stderr w
  ∧ calls w' = calls w ∧ builtins w' = builtins w
  ∧ (∀ l, l ≠ ns → heap w' !! l = heap w !! l)
  ∧ (∀ l o, heap w !! l = Some o →
       match o with ODict _ => l ≠ ns | _ => True end → heap w' !! l = Some o)
  ∧ ∀ entries, heap w !! ns = Some (ODict entries) →
      r = Returned tt
      ∧ ∃ entries', heap w' !! ns = Some (ODict entries')
          ∧ (∀ x, x ≠ "__builtins__" → entries' !! x = entries !! x)
          ∧ entries' !! "__builtins__"
            = Some (default (VRef (builtins w)) (entries !! "__builtins__")).
Proof.
  unfold bind_builtins. intros Hrun.
  destruct (heap w !! ns) as [o|] eqn:Hns; [destruct o as [|entries| | |]|];
    try (simplify_eq; split_and!; try done; by intros; simplify_eq).
  destruct (entries !! "__builtins__") eqn:Hb; simplify_eq.
  - split_and!; try done. intros ? [= <-]. split; [done|].
    eexists. split_and!; [done..|]. by rewrite Hb.
  - cbn. split_and!; try done.
    + intros l Hl. by rewrite lookup_insert_ne.
    + intros l o Hl Ho. rewrite lookup_insert_ne; [done|].
      intros <-. by simplify_eq.
    + intros ? [= <-]. split; [done|]. eexists. split_and!; [apply lookup_insert_eq| |].
      * intros x Hx. by rewrite lookup_insert_ne.
      * rewrite Hb. apply lookup_insert_eq.
Qed.

Lemma alloc_spec o w :
  ∃ l, alloc o w = (Returned l, set_heap (<[l:=o]> (heap w)) w) ∧ heap w !! l = None.
Proof.
  eexists. split; [reflexivity|].
  apply not_elem_of_dom, is_fresh.
Qed.

Lemma redirect_and_copy_spec (c : loc) w ns w1 :
  (out ← alloc (OStringIO "");
   put_sys_stdout out;;
   err ← alloc (OStringIO "");
   put_sys_stderr err;;
   dict_copy c) w = (Returned ns, w1) →
  at_entry w ns w1 ∧ heap w !! ns = None.
Proof.
  unfold put_sys_stdout, put_sys_stderr, dict_copy, mbind, mret, Py_bind, Py_ret.
  intros Hrun.
  destruct (alloc_spec (OStringIO "") w) as (out & Hout & Hfout).
  rewrite Hout in Hrun. cbv beta iota in Hrun.
  match type of Hrun with context [alloc ?o ?w] =>
    destruct (alloc_spec o w) as (err & Herr & Hferr) end.
  rewrite Herr in Hrun. cbn in Hrun, Hferr.
  apply lookup_insert_None in Hferr as [Hferr Hne].
  destruct (decide (err = c)) as [->|Hec];
    [by rewrite lookup_insert_eq in Hrun|rewrite lookup_insert_ne in Hrun by done].
  destruct (decide (out = c)) as [->|Hoc];
    [by rewrite lookup_insert_eq in Hrun|rewrite lookup_insert_ne in Hrun by done].
  assert (∃ o, alloc o (set_sys_stderr err
                 (set_heap (<[err:=OStringIO ""]> (<[out:=OStringIO ""]> (heap w)))
                    (set_sys_stdout out (set_heap (<[out:=OStringIO ""]> (heap w)) w))))
               = (Returned ns, w1)) as [o Hcopy].
  { destruct (heap w !! c) as [[items| entries | | |]|] eqn:Hctx; try done; eauto. }
  clear Hrun.
  match type of Hcopy with alloc ?o ?w = _ =>
    destruct (alloc_spec o w) as (ns' & Hns & Hfns) end.
  rewrite Hns in Hcopy. simplify_eq. cbn in *.
  apply lookup_insert_None in Hfns as [Hfns Hne1].
  apply lookup_insert_None in Hfns as [Hfns Hne2].
  split; [|done]. unfold at_entry. cbn. split_and!; try done.
  - rewrite lookup_insert_ne by done. rewrite lookup_insert_ne by done.
    apply lookup_insert_eq.
  - rewrite lookup_insert_ne by done. apply lookup_insert_eq.
  - intros l o' Hl. split_and!; [|congruence..].
    rewrite !lookup_insert_ne; [done|congruence..].
Qed.

(** What holds where the script starts to run. *)
Lemma sandbox_entry_spec context w ns w1 :
  sandbox_entry context w = (Returned ns, w1) → at_entry w ns w1.
Proof.
  destruct context as [c|]; intros Hrun.
  - by apply (redirect_and_copy_spec c).
  - unfold sandbox_entry in Hrun. unfold mbind at 1 in Hrun. unfold Py_bind at 1 in Hrun.
    destruct (alloc_spec (ODict ∅) w) as (c & Hc & Hfresh).
    rewrite Hc in Hrun.
    apply redirect_and_copy_spec in Hrun as [(? & ? & ? & ? & ? & ? & ? & Hkeep) ?].
    unfold at_entry. split_and!; try done.
    intros l o Hl. apply Hkeep. cbn. rewrite lookup_insert_ne; [done|congruence].
Qed.

(** The same holds once [exec] has given the namespace its builtins. *)
Lemma bind_builtins_at_entry w ns w1 r w2 :
  at_entry w ns w1 →
  bind_builtins ns w1 = (r, w2) →
  at_entry w ns w2.
Proof.
  intros (Hout & Herr & Hne & Hno & Hne' & Hcalls & Hb & Hframe) Hbind.
  apply bind_builtins_spec in Hbind as (Ho & He & Hc & Hb' & Hother & _ & _).
  unfold at_entry. rewrite Ho, He, Hc, Hb'. split_and!; try done.
  - by rewrite Hother.
  - by rewrite Hother.
  - intros l o Hl. destruct (Hframe l o Hl) as (Hl1 & ? & ? & ?).
    split_and!; try done. by rewrite Hother.
Qed.

Lemma entry_context_streams context w :
  sys_stdout (entry_context context w).2 = sys_stdout w
  ∧ sys_stderr (entry_context context w).2 = sys_stderr w.
Proof. by destruct context. Qed.

Lemma run_script_eq script context w :
  run_script script context w =
  (dict_copy (entry_context context w).1 ≫= exec script)
    (redirected (entry_context context w).2).
Proof. destruct context; reflexivity. Qed.

Lemma execute_code_eq_guarded script context w :
  execute_code script context w =
  try_finally
    (try_except_Exception
       (local_vars ← dict_copy (entry_context context w).1;
        exec script local_vars;;
        stdout_output ← (get_sys_stdout ≫= getvalue);
        stderr_output ← (get_sys_stderr ≫= getvalue);
        mret (mkResult stdout_output stderr_output))
       (λ e, mret (mkResult "" (exc_str e))))
    (put_sys_stdout (sys_stdout w);;
     put_sys_stderr (sys_stderr w))
    (redirected (entry_context context w).2).
Proof. destruct context; reflexivity. Qed.

(** [execute_code] split at the point where the script has run. *)
Lemma execute_code_eq script context w :
  execute_code script context w =
  let '(r, w1) := run_script script context w in
  match r with
  | Returned _ =>
      match getvalue (sys_stdout w1) w1 with
      | (Returned stdout_output, _) =>
          match getvalue (sys_stderr w1) w1 with
          | (Returned stderr_output, _) =>
              (Returned (mkResult stdout_output stderr_output), restore_streams w w1)
          | (Raised e, _) =>
              (Returned (mkResult "" (exc_str e)), restore_streams w w1)
          end
      | (Raised e, _) => (Returned (mkResult "" (exc_str e)), restore_streams w w1)
      end
  | Raised e =>
      if derives_Exception (exc_cls e)
      then (Returned (mkResult "" (exc_str e)), restore_streams w w1)
      else (Raised e, restore_streams w w1)
  end.
Proof.
  rewrite execute_code_eq_guarded, run_script_eq.
  generalize (redirected (entry_context context w).2) as w4.
  generalize (entry_context context w).1 as c. intros c w4.
  unfold try_finally, try_except_Exception, restore_streams, mbind, mret, Py_bind, Py_ret.
  destruct (dict_copy c w4) as [[ns|e] w5]; [|by destruct (derives_Exception _)].
  destruct (exec script ns w5) as [[[]|e] w6]; [|by destruct (derives_Exception _)].
  unfold get_sys_stdout, get_sys_stderr, getvalue, put_sys_stdout, put_sys_stderr.
  destruct (heap w6 !! sys_stdout w6) as [[]|]; try done.
  all: destruct (heap w6 !! sys_stderr w6) as [[]|]; done.
Qed.

End ExecFacts.

(** * The script sandbox *)

Section Sandbox.
Import StartScript.
Implicit Types (w : World) (l : loc) (script : py_script) (context : option loc).

Lemma redirected_lookup w l o :
  heap w !! l = Some o → heap (redirected w) !! l = Some o.
Proof.
  intros Hl. unfold redirected. cbn.
  rewrite !lookup_insert_ne; [done|..]; intros E; rewrite <- E in *.
  - eapply (is_fresh (dom (heap w))), elem_of_dom; eauto.
  - eapply (is_fresh (dom (<[fresh (dom (heap w)) := OStringIO ""]> (heap w)))).
    apply elem_of_dom. rewrite lookup_insert_ne; [eauto|].
    intros E'. eapply (is_fresh (dom (heap w))), elem_of_dom. rewrite E'. eauto.
Qed.

Lemma sandbox_entry_eq context w :
  sandbox_entry context w =
  dict_copy (entry_context context w).1 (redirected (entry_context context w).2).
Proof. destruct context; reflexivity. Qed.

Lemma entry_context_lookup context w l o :
  heap w !! l = Some o → heap (entry_context context w).2 !! l = Some o.
Proof.
  intros Hl. destruct context as [c|]; [done|]. cbn.
  rewrite lookup_insert_ne; [done|].
  intros E. rewrite <- E in Hl. by apply fresh_not_allocated in Hl.
Qed.

(** With a dict for bindings, or none, the script gets to run: in a
    namespace of its own that holds the caller's entries and the
    builtins. *)
Lemma run_script_start context w entries :
  match context with
  | Some c => heap w !! c = Some (ODict entries)
  | None => entries = ∅
  end →
  ∃ ns w1 entries',
    (∀ script, run_script script context w =
       match script with
       | Unparsable msg => py_raise SyntaxError msg
       | Program body => exec_body ns body
       end w1)
    ∧ at_entry w ns w1
    ∧ heap w !! ns = None
    ∧ heap w1 !! ns = Some (ODict entries')
    ∧ (∀ x, x ≠ "__builtins__" → entries' !! x = entries !! x)
    ∧ entries' !! "__builtins__"
      = Some (default (VRef (builtins w)) (entries !! "__builtins__")).
Proof.
  intros Hctx.
  assert (heap (redirected (entry_context context w).2) !! (entry_context context w).1
          = Some (ODict entries)) as Hc.
  { apply redirected_lookup. destruct context as [c|]; [done|].
    subst. apply lookup_insert_eq. }
  destruct (sandbox_entry context w) as [r w0] eqn:Hentry.
  assert (∃ ns, r = Returned ns ∧ heap w0 !! ns = Some (ODict entries)) as (ns & -> & Hns).
  { rewrite sandbox_entry_eq in Hentry. unfold dict_copy in Hentry. rewrite Hc in Hentry.
    unfold alloc in Hentry. injection Hentry as <- <-.
    eexists. split; [done|]. apply lookup_insert_eq. }
  pose proof (sandbox_entry_spec _ _ _ _ Hentry) as Hat.
  destruct (bind_builtins ns w0) as [r w1] eqn:Hbind.
  pose proof (bind_builtins_at_entry _ _ _ _ _ Hat Hbind) as Hat1.
  pose proof (bind_builtins_spec _ _ _ _ Hbind) as (_ & _ & _ & _ & _ & _ & Hdict).
  destruct (Hdict _ Hns) as (-> & entries' & Hns1 & Hsame & Hbi).
  exists ns, w1, entries'. split_and!; try done.
  - intros script. unfold run_script, mbind, Py_bind. rewrite Hentry.
    unfold exec, mbind, Py_bind. rewrite Hbind. by destruct script.
  - destruct (heap w !! ns) as [o|] eqn:Hw; [|done].
    destruct Hat as (_ & _ & _ & _ & _ & _ & _ & Hframe).
    by destruct (Hframe _ _ Hw) as (_ & ? & _).
  - rewrite Hbi. by destruct Hat as (_ & _ & _ & _ & _ & _ & -> & _).
Qed.

Lemma context_is_dict_entries context w :
  context_is_dict context w →
  ∃ entries, match context with
             | Some c => heap w !! c = Some (ODict entries)
             | None => entries = ∅
             end.
Proof. destruct context; cbn; eauto. Qed.

(** Whatever the bindings are, the script runs from an entry state or
    the run has failed before it and no object has changed. *)
Lemma run_script_cases script context w :
  (∃ ns w1, at_entry w ns w1
     ∧ run_script script context w =
       match script with
       | Unparsable msg => py_raise SyntaxError msg
       | Program body => exec_body ns body
       end w1)
  ∨ (∃ e w1, run_script script context w = (Raised e, w1)
       ∧ calls w1 = calls w
       ∧ ∀ l o, heap w !! l = Some o → heap w1 !! l = Some o).
Proof.
  unfold run_script, mbind, Py_bind.
  destruct (sandbox_entry context w) as [[ns|e] w0] eqn:Hentry.
  - pose proof (sandbox_entry_spec _ _ _ _ Hentry) as Hat.
    unfold exec, mbind, Py_bind.
    destruct (bind_builtins ns w0) as [[[]|e] w1] eqn:Hbind;
      pose proof (bind_builtins_at_entry _ _ _ _ _ Hat Hbind) as Hat1.
    + left. exists ns, w1. split; [done|]. by destruct script.
    + right. exists e, w1. split; [done|].
      destruct Hat1 as (_ & _ & _ & _ & _ & ? & _ & Hframe).
      split; [done|]. intros l o Hl. by apply Hframe.
  - right. exists e, w0. split; [done|].
    rewrite sandbox_entry_eq in Hentry. unfold dict_copy, alloc in Hentry.
    assert (w0 = redirected (entry_context context w).2) as ->
      by (repeat case_match; by simplify_eq).
    split; [by destruct context|].
    intros l o Hl. by apply redirected_lookup, entry_context_lookup.
Qed.

(** The script cannot reach the record of calls. *)
Lemma run_script_calls script context w : calls (run_script script context w).2 = calls w.
Proof.
  destruct (run_script_cases script context w)
    as [(ns & w1 & Hat & ->)|(e & w1 & -> & Hc & _)]; [|done].
  destruct Hat as (_ & _ & _ & _ & _ & Hc & _).
  destruct script as [msg|body]; [done|].
  destruct (exec_body ns body w1) as [r w2] eqn:Hrun.
  apply exec_body_calls in Hrun as [? _]. cbn. congruence.
Qed.

(** After the script, [execute_code] reads the two streams and puts
    back the ones it found; it writes no object. *)
Lemma execute_code_world script context w :
  (execute_code script context w).2 = restore_streams w (run_script script context w).2.
Proof.
  rewrite execute_code_eq.
  destruct (run_script script context w) as [[[]|e] w1]; cbn [snd].
  - unfold getvalue. by repeat case_match.
  - by case_match.
Qed.

Lemma execute_code_result script context w :
  (execute_code script context w).1 =
  match run_script script context w with
  | (Raised e, _) =>
      if derives_Exception (exc_cls e)
      then Returned (mkResult "" (exc_str e))
      else Raised e
  | (Returned _, w1) =>
      match (getvalue (sys_stdout w1) w1).1 with
      | Returned stdout_output =>
          match (getvalue (sys_stderr w1) w1).1 with
          | Returned stderr_output => Returned (mkResult stdout_output stderr_output)
          | Raised e => Returned (mkResult "" (exc_str e))
          end
      | Raised e => Returned (mkResult "" (exc_str e))
      end
  end.
Proof.
  rewrite execute_code_eq.
  destruct (run_script script context w) as [[[]|e] w1].
  - destruct (getvalue (sys_stdout w1) w1) as [[out|e] ?]; [|done].
    by destruct (getvalue (sys_stderr w1) w1) as [[err|e] ?].
  - by case_match.
Qed.

(** A run of named statements that completes leaves in the two buffers
    what it printed and what it wrote to the error stream. *)
Lemma run_script_plain script context w w1 :
  plain script = true →
  run_script script context w = (Returned tt, w1) →
  heap w1 !! sys_stdout w1 = Some (OStringIO (printed_output script))
  ∧ heap w1 !! sys_stderr w1 = Some (OStringIO (error_output script)).
Proof.
  intros Hplain Hrun.
  destruct (run_script_cases script context w)
    as [(ns & w0 & Hat & Heq)|(e & w0 & Heq & _)]; rewrite Heq in Hrun; [|done].
  destruct Hat as (Hout & Herr & Hne & _).
  destruct script as [msg|body]; [done|]. cbn in Hplain.
  destruct (exec_body_buffers _ _ _ _ _ _ Hplain Hrun Hne Hout Herr) as [Hout1 Herr1].
  apply exec_body_streams in Hrun as (Ho & He); [|done].
  by rewrite Ho, He.
Qed.

Lemma execute_code_plain script context w :
  plain script = true →
  is_Returned (run_script script context w).1 = true →
  (execute_code script context w).1
  = Returned (mkResult (printed_output script) (error_output script)).
Proof.
  intros Hplain Hret. rewrite execute_code_result.
  destruct (run_script script context w) as [[[]|e] w1] eqn:Hrun; [|done].
  destruct (run_script_plain _ _ _ _ Hplain Hrun) as [Hout Herr].
  unfold getvalue. by rewrite Hout, Herr.
Qed.

(** A script that prints and then raises: the run ends in the raise. *)
Lemma run_script_prints_then_raise context w outs c msg rest :
  context_is_dict context w →
  (run_script (Program ((SPrint <$> outs) ++ SRaise c msg :: rest)) context w).1
  = Raised (PyExc c msg).
Proof.
  intros Hctx. destruct (context_is_dict_entries _ _ Hctx) as [entries Hentries].
  destruct (run_script_start _ _ _ Hentries) as (ns & w1 & ? & -> & Hat & _).
  destruct Hat as (Hout & _).
  destruct (exec_body_prints_then_raise ns outs c msg rest _ _ Hout) as [w2 Hrun].
  by rewrite Hrun.
Qed.

Lemma execute_code_prints_then_raise context w outs c msg rest :
  context_is_dict context w →
  (execute_code (Program ((SPrint <$> outs) ++ SRaise c msg :: rest)) context w).1
  = if derives_Exception c then Returned (mkResult "" msg) else Raised (PyExc c msg).
Proof.
  intros Hctx. rewrite execute_code_result.
  pose proof (run_script_prints_then_raise context w outs c msg rest Hctx) as Hrun.
  destruct (run_script _ context w) as [r w1]. cbn in Hrun. by subst.
Qed.

(** Every object of the caller that a script of named statements
    does not mutate in place is, after the call, what it was before. *)
Lemma run_script_keeps script context w l o :
  plain script = true →
  heap w !! l = Some o →
  match o with OList _ => mutation_free script = true | _ => True end →
  heap (run_script script context w).2 !! l = Some o.
Proof.
  intros Hplain Hl Ho.
  destruct (run_script_cases script context w)
    as [(ns & w1 & Hat & ->)|(e & w1 & -> & _ & Hframe)]; [|by apply Hframe].
  destruct Hat as (_ & _ & _ & _ & _ & _ & _ & Hframe).
  destruct (Hframe l o Hl) as (Hl1 & Hns & Hso & Hse).
  destruct script as [msg|body]; [done|].
  destruct (exec_body ns body w1) as [r w2] eqn:Hrun.
  eapply exec_body_frame; [done..|]. split; [done|]. by destruct o.
Qed.

Lemma execute_code_keeps script context w l o :
  plain script = true →
  heap w !! l = Some o →
  match o with OList _ => mutation_free script = true | _ => True end →
  heap (execute_code script context w).2 !! l = Some o.
Proof.
  intros Hplain Hl Ho. rewrite execute_code_world. by apply run_script_keeps.
Qed.

Lemma mutation_free_plain script : mutation_free script = true → plain script = true.
Proof.
  destruct script as [msg|body]; [done|]. cbn.
  induction body as [|s body IH]; [done|]. cbn.
  intros [Hs Hb]%andb_prop. rewrite IH by done. by destruct s.
Qed.


(** Two runs that complete and leave [sys.stdout] unreadable: the
    script has printed, and then bound [sys.stdout] to a list, or
    closed it.  The error of reading the output is reported as a fault
    of the script would be, and what was printed is lost. *)
Example execute_code_stdout_rebound :
  (execute_code (Program [SPrint "3 models"; rebind_stdout]) None quiet_world).1
  = Returned (mkResult "" "'list' object has no attribute 'getvalue'").
Proof. vm_compute. reflexivity. Qed.

Example execute_code_stdout_closed :
  (execute_code (Program [SPrint "3 models"; close_stdout]) None quiet_world).1
  = Returned (mkResult "" "I/O operation on closed file").
Proof. vm_compute. reflexivity. Qed.

(** C1, as stated, fails: [execute_code] raises to its caller when the
    script raises [SystemExit], which [except Exception] does not
    catch; a fault whose exception has no message gives an empty
    [stderr]; and a script that completes after writing to the error
    stream gives a non-empty [stderr]. *)
Lemma execute_contract_counterexample :
  ¬ execute_contract_as_stated
  ∧ (execute_code (Program [SRaise SystemExit ""]) None quiet_world).1
    = Raised (PyExc SystemExit "")
  ∧ (execute_code (Program [SRaise AssertionError ""]) None quiet_world).1
    = Returned (mkResult "" "")
  ∧ (execute_code (Program [SPrint "3 models"; SWriteErr "deprecated"]) None quiet_world).1
    = Returned (mkResult ("3 models" +:+ newline) "deprecated").
Proof.
  split_and!; [|vm_compute; reflexivity..].
  intros H.
  destruct (H (Program [SRaise SystemExit ""]) None quiet_world) as (r & Hr & _).
  vm_compute in Hr. discriminate.
Qed.

(** C1 (amended).  What [execute_code] gives back is decided by how the
    script run ends and by what [sys.stdout] and [sys.stderr] are when
    it has ended.  A fault that is an [Exception] is caught: the call
    returns, with [stdout] empty and [stderr] the exception's message,
    whatever that message is.  A fault that is not an [Exception] (an
    exit request, an interrupt) is raised to the caller.  After a script
    that completes, the two streams are read as the script left them:
    the result holds their texts, and when a read fails (the script has
    bound the stream to an object without [getvalue], or closed it) the
    error is reported as a fault is, with [stdout] empty and [stderr]
    its message.  For a script made of prints, writes to [sys.stderr],
    assignments, appends and raises, the texts are what it printed and
    what it wrote to the error stream. *)
Theorem execute_code_outcome script context w :
  (execute_code script context w).1 =
  match run_script script context w with
  | (Raised e, _) =>
      if derives_Exception (exc_cls e)
      then Returned (mkResult "" (exc_str e))
      else Raised e
  | (Returned _, w1) =>
      match (getvalue (sys_stdout w1) w1).1 with
      | Returned stdout_output =>
          match (getvalue (sys_stderr w1) w1).1 with
          | Returned stderr_output => Returned (mkResult stdout_output stderr_output)
          | Raised e => Returned (mkResult "" (exc_str e))
          end
      | Raised e => Returned (mkResult "" (exc_str e))
      end
  end
  ∧ (plain script = true →
     is_Returned (run_script script context w).1 = true →
     (execute_code script context w).1
     = Returned (mkResult (printed_output script) (error_output script))).
Proof.
  split; [apply execute_code_result|apply execute_code_plain].
Qed.

Lemma execute_code_outcome_witness :
  (execute_code (Program [SAssign "n" (EInt 3); SPrint "3 models"; SWriteErr "deprecated"])
     (Some 2) catalog_world).1
  = Returned (mkResult ("3 models" +:+ newline) "deprecated").
Proof.
  destruct (execute_code_outcome
              (Program [SAssign "n" (EInt 3); SPrint "3 models"; SWriteErr "deprecated"])
              (Some 2) catalog_world) as [_ Hplain].
  apply Hplain; vm_compute; reflexivity.
Defined.

(** C2, as stated, fails: after [print("partial")] and
    [raise ValueError("boom")] the result's [stdout] is empty, not the
    line printed before the fault; and when the exception carries no
    message, as after a bare [assert False], [stderr] is empty too. *)
Lemma output_before_fault_counterexample :
  ¬ output_before_fault_kept_as_stated
  ∧ (execute_code (Program [SPrint "partial"; SRaise ValueError "boom"]) None quiet_world).1
    = Returned (mkResult "" "boom")
  ∧ (execute_code (Program [SPrint "partial"; SRaise AssertionError ""]) None quiet_world).1
    = Returned (mkResult "" "").
Proof.
  split_and!; [|vm_compute; reflexivity..].
  intros H.
  destruct (H ["partial"] ValueError "boom" None quiet_world) as (r & Hr & Hout & _);
    [done..|].
  vm_compute in Hr. injection Hr as <-. vm_compute in Hout. discriminate.
Qed.

(** C2 (amended).  For every script that prints some output and then
    throws an [Exception], the result has an empty [stdout], the output
    produced before the fault being discarded, and [stderr] equal to the
    exception's message. *)
Theorem execute_code_discards_output outs c msg rest context w :
  derives_Exception c = true →
  context_is_dict context w →
  (execute_code (Program ((SPrint <$> outs) ++ SRaise c msg :: rest)) context w).1
  = Returned (mkResult "" msg).
Proof.
  intros Hc Hctx. rewrite execute_code_prints_then_raise by done. by rewrite Hc.
Qed.

Lemma execute_code_discards_output_witness :
  derives_Exception ValueError = true
  ∧ context_is_dict (Some 2) catalog_world
  ∧ (execute_code (Program ((SPrint <$> ["partial"]) ++ SRaise ValueError "boom" :: []))
       (Some 2) catalog_world).1 = Returned (mkResult "" "boom").
Proof.
  split; [reflexivity|].
  assert (context_is_dict (Some 2) catalog_world) as Hctx by (eexists; reflexivity).
  split; [exact Hctx|].
  apply (execute_code_discards_output ["partial"] ValueError "boom" [] (Some 2) catalog_world);
    [reflexivity | exact Hctx].
Defined.


(** A script that reaches the caller's dict through the frame of
    [execute_code] changes it: the protection of the copy is against
    what a script does to its own namespace. *)
Example execute_code_bindings_cleared :
  heap (execute_code (Program [clear_bindings_of_caller 2]) (Some 2) catalog_world).2 !! 2
  = Some (ODict ∅).
Proof. vm_compute. reflexivity. Qed.



(** C9.  After [execute_code], whether the script completed, faulted,
    or raised through to the caller, [sys.stdout] and [sys.stderr] are
    what they were before the call. *)
Theorem execute_code_restores_streams script context w :
  sys_stdout (execute_code script context w).2 = sys_stdout w
  ∧ sys_stderr (execute_code script context w).2 = sys_stderr w.
Proof.
  rewrite execute_code_eq.
  destruct (run_script script context w) as [[[]|e] w1].
  - unfold getvalue. by repeat case_match.
  - by case_match.
Qed.

End Sandbox.

(** * Dicts built by the code *)

Section DictFacts.
Context {V : Type}.
Implicit Types (d : pydict V) (k : string) (v : V).

Lemma dict_get_set k k' v d :
  dict_get k (dict_set k' v d) = if decide (k = k') then Some v else dict_get k d.
Proof.
  induction d as [|[k0 v0] d IH]; cbn.
  - by repeat case_decide.
  - repeat (case_decide; cbn; simplify_eq); try done.
Qed.

Lemma dict_set_keys k v d :
  (dict_set k v d).*1 = if decide (k ∈ d.*1) then d.*1 else d.*1 ++ [k].
Proof.
  induction d as [|[k0 v0] d IH]; cbn.
  - case_decide as H; [by apply elem_of_nil in H|done].
  - destruct (decide (k = k0)) as [->|Hk]; cbn.
    + rewrite decide_True; [done|]. apply elem_of_cons. by left.
    + rewrite IH. destruct (decide (k ∈ d.*1)) as [Hin|Hin].
      * rewrite decide_True; [done|]. apply elem_of_cons. by right.
      * rewrite decide_False; [done|]. by intros [?|?]%elem_of_cons.
Qed.

Lemma dict_set_NoDup k v d : NoDup d.*1 → NoDup (dict_set k v d).*1.
Proof.
  intros Hd. rewrite dict_set_keys. case_decide as Hk; [done|].
  apply NoDup_app. split_and!; [done| |apply NoDup_singleton].
  intros x Hx ->%list_elem_of_singleton. done.
Qed.

Lemma dict_get_elem k v d : dict_get k d = Some v → (k, v) ∈ d.
Proof.
  induction d as [|[k0 v0] d IH]; cbn; [done|].
  case_decide; intros; simplify_eq; [left|right; auto].
Qed.

Lemma elem_dict_get k v d : NoDup d.*1 → (k, v) ∈ d → dict_get k d = Some v.
Proof.
  induction d as [|[k0 v0] d IH]; cbn; intros Hnd Hin.
  - by apply elem_of_nil in Hin.
  - apply NoDup_cons in Hnd as [Hk0 Hnd].
    apply elem_of_cons in Hin as [[= -> ->]|Hin].
    + by rewrite decide_True.
    + rewrite decide_False; [auto|].
      intros ->. apply Hk0. apply list_elem_of_fmap. by exists (k0, v).
Qed.

(** The dict a comprehension over a list of keys builds. *)
Lemma dict_comprehension_spec (val : string → outcome V) xs acc d :
  dict_comprehension (λ x, x) val xs acc = Returned d →
  NoDup acc.*1 →
  NoDup d.*1
  ∧ (∀ k, k ∈ d.*1 ↔ k ∈ xs ∨ k ∈ acc.*1)
  ∧ (∀ k, k ∈ xs → ∃ v, val k = Returned v ∧ dict_get k d = Some v)
  ∧ (∀ k, k ∉ xs → dict_get k d = dict_get k acc).
Proof.
  revert acc. induction xs as [|x xs IH]; intros acc Hrun Hnd; cbn in Hrun.
  - simplify_eq. split_and!; [done| |by intros ? ?%elem_of_nil|done].
    intros k. split; [by right|]. by intros [?%elem_of_nil|?].
  - destruct (val x) as [v|e] eqn:Hx; [|done]. cbn in Hrun.
    apply IH in Hrun as (Hnd' & Hkeys & Hin & Hout); [|by apply dict_set_NoDup].
    split_and!; [done|..].
    + intros k. rewrite Hkeys, dict_set_keys, elem_of_cons.
      case_decide as Hxa; [|rewrite elem_of_app, list_elem_of_singleton];
        intuition (subst; auto).
    + intros k [->|Hk]%elem_of_cons; [|by apply Hin].
      destruct (decide (x ∈ xs)) as [Hxs|Hxs]; [by apply Hin|].
      exists v. split; [done|]. rewrite Hout by done.
      rewrite dict_get_set. by rewrite decide_True.
    + intros k Hk. apply not_elem_of_cons in Hk as [Hkx Hk].
      rewrite Hout by done. rewrite dict_get_set. by rewrite decide_False.
Qed.

Lemma dict_comprehension_returns (val : string → outcome V) xs acc :
  (∀ k, k ∈ xs → is_Returned (val k) = true) →
  ∃ d, dict_comprehension (λ x, x) val xs acc = Returned d.
Proof.
  revert acc. induction xs as [|x xs IH]; intros acc Hall; cbn; [eauto|].
  destruct (val x) as [v|e] eqn:Hx.
  - cbn. apply IH. intros k Hk. apply Hall. by right.
  - specialize (Hall x). rewrite Hx in Hall. discriminate Hall. left.
Qed.

Lemma for_each_Returned {X} (body : X → outcome unit) xs :
  for_each body xs = Returned tt ↔ ∀ x, x ∈ xs → body x = Returned tt.
Proof.
  induction xs as [|x xs IH]; cbn.
  - split; [by intros _ ? ?%elem_of_nil|done].
  - destruct (body x) as [[]|e] eqn:Hx; cbn.
    + rewrite IH. split.
      * intros H y [->|?]%elem_of_cons; auto.
      * intros H y Hy. apply H. by right.
    + split; [done|]. intros H. specialize (H x). rewrite Hx in H.
      discriminate H. left.
Qed.

(** A dict filled from a list has every key of the list. *)
Lemma dict_of_list_is_Some (key : V → string) (xs : list V) acc k :
  is_Some (dict_get k acc) ∨ k ∈ key <$> xs →
  is_Some (dict_get k (fold_left (λ acc x, dict_set (key x) x acc) xs acc)).
Proof.
  revert acc. induction xs as [|x xs IH]; intros acc [Hacc|Hin]; cbn.
  - done.
  - by apply elem_of_nil in Hin.
  - apply IH. left. rewrite dict_get_set. case_decide; eauto.
  - apply IH. apply elem_of_cons in Hin as [->|Hin]; [left|by right].
    rewrite dict_get_set. rewrite decide_True by done. eauto.
Qed.
End DictFacts.

(** * The router *)

Section Router.
Import StartScript.
Variable asimilarity_search : FAISS → string → nat → outcome (list Document).
Variable docs_store_dict : pydict FAISS.
Variable resource_items : loc.

Abbreviation respond := (respond_to_user asimilarity_search docs_store_dict resource_items).

Lemma opt_str_or_chosen q database_id :
  chosen_channel q database_id (opt_str_or (channel_id q) database_id).
Proof.
  unfold chosen_channel, opt_str_or, str_truthy.
  destruct (channel_id q) as [c|]; [|by right; split; [left|]].
  destruct (String.eqb_spec c "") as [->|Hne]; cbn.
  - right. split; [by right|done].
  - left. by exists c.
Qed.

(** The retrieval branch, step by step. *)
Lemma respond_to_user_retrieval q role w history query request user_info database_id :
  chat_history q = Some history →
  aask_request role (classification_inputs q history)
    = Returned (DocumentRetrievalInput query request user_info database_id) →
  respond q role w =
  (let selected_channel := opt_str_or (channel_id q) database_id in
   docs_store ← lift (dict_getitem docs_store_dict selected_channel);
   log_call (SimilaritySearch docs_store query 3);;
   relevant_docs ← lift (asimilarity_search docs_store query 3);
   log_call (LLMCall FinalResponseSchema);;
   response ← lift (aask_final role
                (DocumentSearchInput request (page_content <$> relevant_docs) user_info));
   mret (StartScript.response response))
    (record_call (RegistryLookup (opt_str_or (channel_id q) database_id))
       (record_call (LLMCall RequestUnion) w)).
Proof.
  intros Hhist Hask.
  unfold respond_to_user. rewrite Hhist. cbn [list_of_optional].
  unfold classification_inputs in Hask.
  unfold mbind at 1 2 3 4. unfold Py_bind at 1 2 3 4.
  unfold lift at 1 2, log_call at 1 2. by rewrite Hask.
Qed.

(** C4 (amended).  When classification returns a retrieval request,
    the registry lookup and the search run against the context's
    [channel_id] if it is a non-empty string, whatever [database_id]
    the model chose, and against [database_id] if [channel_id] is
    absent or the empty string. *)
Theorem respond_to_user_channel q role w history query request user_info database_id :
  chat_history q = Some history →
  aask_request role (classification_inputs q history)
    = Returned (DocumentRetrievalInput query request user_info database_id) →
  ∃ selected rest,
    chosen_channel q database_id selected
    ∧ calls (respond q role w).2
      = calls w ++ [LLMCall RequestUnion; RegistryLookup selected] ++ rest
    ∧ ∀ store, dict_get selected docs_store_dict = Some store →
        ∃ rest', rest = SimilaritySearch store query 3 :: rest'.
Proof.
  intros Hhist Hask.
  exists (opt_str_or (channel_id q) database_id).
  rewrite (respond_to_user_retrieval _ _ _ _ _ _ _ _ Hhist Hask). cbn zeta.
  unfold mbind, Py_bind, lift, log_call, dict_getitem.
  destruct (dict_get _ docs_store_dict) as [store|] eqn:Hstore.
  - destruct (asimilarity_search store query 3) as [docs|e].
    + destruct (aask_final role _) as [resp|e]; cbn.
      all: eexists; split; [apply opt_str_or_chosen|].
      all: split; [by rewrite <- !app_assoc|].
      all: intros ? [= <-]; eauto.
    + cbn. eexists; split; [apply opt_str_or_chosen|].
      split; [by rewrite <- !app_assoc|]. intros ? [= <-]; eauto.
  - cbn. exists []. split; [apply opt_str_or_chosen|].
    split; [by rewrite <- !app_assoc|]. done.
Qed.

(** C5.  When classification returns a direct answer, its [response]
    is what [respond_to_user] returns, and the one call made is the
    classification itself: no registry lookup, no search, no script
    run, no second call to the model. *)
Theorem respond_to_user_direct q role w history response :
  chat_history q = Some history →
  aask_request role (classification_inputs q history) = Returned (DirectResponse response) →
  respond q role w = (Returned response, record_call (LLMCall RequestUnion) w).
Proof.
  intros Hhist Hask.
  unfold respond_to_user. rewrite Hhist. cbn [list_of_optional].
  unfold classification_inputs in Hask.
  unfold mbind, Py_bind, lift, log_call. cbn [fst snd]. by rewrite Hask.
Qed.
End Router.

(** C4, as stated, fails: with [channel_id] set to the empty string the
    lookup runs against the model's [database_id]. *)
Lemma channel_precedence_counterexample :
  ¬ channel_precedence_as_stated
  ∧ calls (StartScript.respond_to_user search_docs registry 3
             (segment_question (Some "")) retrieval_role catalog_world).2
    = [LLMCall RequestUnion; RegistryLookup "bioimage.io";
       SimilaritySearch small_store "segment" 3; LLMCall FinalResponseSchema].
Proof.
  split; [|vm_compute; reflexivity].
  intros H.
  destruct (H search_docs registry 3 (segment_question (Some "")) retrieval_role
              catalog_world [] "segment" "How to segment?" "" "bioimage.io" ""
              eq_refl eq_refl eq_refl) as [rest Hrest].
  vm_compute in Hrest. discriminate.
Qed.

Lemma respond_to_user_channel_witness :
  ∃ selected rest,
    chosen_channel (segment_question (Some "scikit-image")) "bioimage.io" selected
    ∧ calls (StartScript.respond_to_user search_docs registry 3
               (segment_question (Some "scikit-image")) retrieval_role catalog_world).2
      = calls catalog_world ++ [LLMCall RequestUnion; RegistryLookup selected] ++ rest
    ∧ ∀ store, dict_get selected registry = Some store →
        ∃ rest', rest = SimilaritySearch store "segment" 3 :: rest'.
Proof.
  apply (respond_to_user_channel search_docs registry 3
           (segment_question (Some "scikit-image")) retrieval_role catalog_world
           [] "segment" "How to segment?" "" "bioimage.io"); reflexivity.
Defined.

Lemma respond_to_user_direct_witness :
  StartScript.respond_to_user search_docs registry 3
    (StartScript.mkQuestionWithHistory "What is 2+2?" (Some []) None None)
    direct_role catalog_world
  = (Returned "4", record_call (LLMCall RequestUnion) catalog_world).
Proof.
  apply (respond_to_user_direct search_docs registry 3
           (StartScript.mkQuestionWithHistory "What is 2+2?" (Some []) None None)
           direct_role catalog_world [] "4"); reflexivity.
Defined.

(** * The knowledge-base registry *)

Section Registry.
Import StartScript.
Variable MANIFEST_collections : list Collection.
Variable DB_PATH : string.
Variable FAISS_load_local : string → string → outcome FAISS.

Abbreviation load := (load_knowledge_base MANIFEST_collections DB_PATH FAISS_load_local).

(** The registry is built exactly when every index loads and no
    loaded store is empty. *)
Lemma load_knowledge_base_Returned d :
  load = Returned d ↔
  dict_comprehension (λ x, x) (FAISS_load_local DB_PATH)
    (collection_id <$> MANIFEST_collections) [] = Returned d
  ∧ ∀ name store, (name, store) ∈ d → size (docstore_dict store) ≠ 0.
Proof.
  unfold load_knowledge_base, load_docs_store, mbind, mret, outcome_bind, outcome_ret.
  destruct (dict_comprehension _ _ _ _) as [d'|e]; [|by split; [|intros []]].
  destruct (for_each _ d') as [[]|e] eqn:Hloop.
  - split; [intros [= <-]|intros [[= <-] Hsizes]]; [|done].
    split; [done|]. intros name store Hin.
    apply (proj1 (for_each_Returned _ _) Hloop) in Hin.
    unfold py_assert in Hin. by destruct (size (docstore_dict store)).
  - split; [done|]. intros [[= <-] Hsizes]. exfalso.
    assert (for_each (λ '(name, docs_store),
              py_assert (0 <? size (docstore_dict docs_store))%nat
                ("Please make sure the docs store " +:+ name +:+ " is not empty."))
              d' = Returned tt) as Hok; [|congruence].
    apply for_each_Returned. intros [name store] Hin. unfold py_assert.
    specialize (Hsizes _ _ Hin). by destruct (size (docstore_dict store)).
Qed.

(** C7.  [load_knowledge_base] raises whenever the store of some
    configured collection has no documents.  When it returns, the
    keys of the registry are the configured ids, each once, and each
    configured id maps to the store loaded for it, which is not
    empty.  It does return when every store loads and is not
    empty. *)
Theorem load_knowledge_base_fail_fast :
  (∀ c store,
     c ∈ MANIFEST_collections →
     FAISS_load_local DB_PATH (collection_id c) = Returned store →
     size (docstore_dict store) = 0 →
     ∃ e, load = Raised e)
  ∧ (∀ d, load = Returned d →
       NoDup d.*1
       ∧ (∀ k, k ∈ d.*1 ↔ k ∈ collection_id <$> MANIFEST_collections)
       ∧ ∀ c, c ∈ MANIFEST_collections →
           ∃ store, dict_get (collection_id c) d = Some store
                    ∧ FAISS_load_local DB_PATH (collection_id c) = Returned store
                    ∧ 0 < size (docstore_dict store))
  ∧ ((∀ c, c ∈ MANIFEST_collections →
        ∃ store, FAISS_load_local DB_PATH (collection_id c) = Returned store
                 ∧ 0 < size (docstore_dict store)) →
     ∃ d, load = Returned d).
Proof.
  assert (∀ d, load = Returned d →
       NoDup d.*1
       ∧ (∀ k, k ∈ d.*1 ↔ k ∈ collection_id <$> MANIFEST_collections)
       ∧ ∀ c, c ∈ MANIFEST_collections →
           ∃ store, dict_get (collection_id c) d = Some store
                    ∧ FAISS_load_local DB_PATH (collection_id c) = Returned store
                    ∧ 0 < size (docstore_dict store)) as Hok.
  { intros d [Hbuild Hsizes]%load_knowledge_base_Returned.
    apply dict_comprehension_spec in Hbuild as (Hnd & Hkeys & Hin & _);
      [|apply NoDup_nil_2].
    split_and!; [done| |].
    - intros k. rewrite Hkeys. cbn. rewrite elem_of_nil. tauto.
    - intros c Hc.
      destruct (Hin (collection_id c)) as (store & Hload & Hget).
      { apply list_elem_of_fmap. by exists c. }
      exists store. split_and!; [done..|].
      apply dict_get_elem, Hsizes in Hget. lia. }
  split_and!; [|done|].
  - intros c store Hc Hload Hempty.
    destruct load as [d|e] eqn:Hrun; [|eauto].
    destruct (Hok d eq_refl) as (_ & _ & Hall).
    destruct (Hall c Hc) as (store' & _ & Hload' & Hsize).
    rewrite Hload in Hload'. simplify_eq. lia.
  - intros Hall.
    destruct (dict_comprehension_returns (FAISS_load_local DB_PATH)
                (collection_id <$> MANIFEST_collections) []) as [d Hbuild].
    { intros k (c & -> & Hc)%list_elem_of_fmap.
      destruct (Hall c Hc) as (store & -> & _). done. }
    exists d. apply load_knowledge_base_Returned. split; [done|].
    intros name store Hin.
    pose proof Hbuild as (Hnd & Hkeys & Hvals & _)%dict_comprehension_spec;
      [|apply NoDup_nil_2].
    assert (name ∈ collection_id <$> MANIFEST_collections) as Hname.
    { assert (name ∈ d.*1) as Hk by (apply list_elem_of_fmap; by exists (name, store)).
      apply Hkeys in Hk as [?|?%elem_of_nil]; done. }
    destruct (Hvals name Hname) as (store' & Hload & Hget).
    apply (elem_dict_get _ _ _ Hnd) in Hin.
    rewrite Hin in Hget. injection Hget as <-.
    apply list_elem_of_fmap in Hname as (c & -> & Hc).
    destruct (Hall c Hc) as (store'' & Hload'' & Hsize).
    rewrite Hload in Hload''. injection Hload'' as <-. lia.
Qed.
End Registry.

Lemma load_knowledge_base_fail_fast_witness :
  (∃ e, StartScript.load_knowledge_base manifest "docs/knowledge-base" load_one_empty
        = Raised e)
  ∧ (∃ d, StartScript.load_knowledge_base manifest "docs/knowledge-base" load_full
          = Returned d).
Proof.
  split.
  - destruct (load_knowledge_base_fail_fast manifest "docs/knowledge-base" load_one_empty)
      as (Hfail & _ & _).
    apply (Hfail (StartScript.mkCollection "bioimage.io" "bioimage.io" "the model zoo"
                    (Some "https://bioimage.io/docs")) empty_store).
    + right. left.
    + reflexivity.
    + reflexivity.
  - destruct (load_knowledge_base_fail_fast manifest "docs/knowledge-base" load_full)
      as (_ & _ & Hbuilt).
    apply Hbuilt. intros c Hc. exists small_store. split; [reflexivity|].
    vm_compute. lia.
Defined.

(** * The service facade *)

(** C8 fails on the code: [chat] called without [user_profile] raises.
    With [user_profile] left at its default [None],
    [UserProfile.parse_obj(None)] raises a validation error before the
    request reaches the dispatcher, for every text, history and channel
    that is omitted or registered; an unknown channel raises the
    assertion error that lists the channel names. *)
Theorem chat_without_profile M handle text history channel w :
  StartScript.chat M handle text history None channel w =
  (Raised match channel with
          | Some c => if channel_unknown M c then unknown_channel_error M c else profile_error
          | None => profile_error
          end, w).
Proof.
  unfold StartScript.chat, channel_unknown, unknown_channel_error, profile_error,
    mbind, Py_bind, lift.
  destruct channel as [c|]; [|done].
  destruct (str_truthy c); [|done]. cbn [andb].
  unfold mbind, outcome_bind, py_assert, dict_getitem.
  destruct (dict_get c (StartScript.channel_id_by_name M)) as [cid|] eqn:Hc.
  - rewrite bool_decide_eq_true_2 by eauto. done.
  - rewrite bool_decide_eq_false_2 by (by intros [? ?]). done.
Qed.

(** The call of the specification's scenario A, with the profile
    omitted as the signature allows. *)
Example chat_scenario_without_profile :
  StartScript.chat manifest echo_handle "How can I segment a cell image?" (Some []) None
    (Some "scikit-image") quiet_world
  = (Raised profile_error, quiet_world).
Proof. vm_compute. reflexivity. Qed.

(** * The documentation extension *)

Section Extension.
Import StartScript DocsExtension.
Variable collections : list Collection.
Variable docs_store_dict : pydict FAISS.
Variable search : FAISS → string → nat → outcome (list (Document * Q)).

Abbreviation run := (run_extension collections docs_store_dict search).

Lemma retrieved_documents_line_short docs :
  length docs < 3 → retrieved_documents_line docs = Raised index_error.
Proof.
  destruct docs as [|d0 [|d1 [|d2 docs]]]; cbn; intros; first [done | lia].
Qed.

Lemma retrieved_documents_line_full docs :
  3 ≤ length docs → ∃ line, retrieved_documents_line docs = Returned line.
Proof.
  destruct docs as [|d0 [|d1 [|d2 docs]]]; cbn; intros; first [lia | by eexists].
Qed.

(** Past the two lookups and the search, [run_extension] is the log
    line over the documents built from the results, then these
    documents. *)
Lemma run_extension_eq channel_id req store results :
  dict_get channel_id docs_store_dict = Some store →
  channel_id ∈ collection_id <$> collections →
  search store (query req) 3 = Returned results →
  ∃ base_url,
    run channel_id req =
    (retrieved_documents_line (as_doc_with_score base_url <$> results);;
     mret (as_doc_with_score base_url <$> results)).
Proof.
  intros Hstore Hcoll Hsearch. unfold run_extension, dict_getitem.
  rewrite Hstore. cbn [mbind outcome_bind].
  destruct (dict_of_list_is_Some collection_id collections [] channel_id)
    as [info Hinfo]; [by right|].
  rewrite Hinfo. cbn [mbind outcome_bind]. rewrite Hsearch. cbn [mbind outcome_bind].
  exists (collection_base_url info).
  assert ((λ '(doc, score), mkDocWithScore (page_content doc) score
                              (Langchain.metadata doc) (collection_base_url info))
          <$> results = as_doc_with_score (collection_base_url info) <$> results) as ->.
  { apply list_fmap_ext. by intros ? [doc score]. }
  done.
Qed.

(** C10.  For a configured channel whose search yields fewer than
    three results, [run_extension] raises [IndexError]: the closing
    log line indexes the first three documents. *)
Theorem run_extension_short_results channel_id req store results :
  dict_get channel_id docs_store_dict = Some store →
  channel_id ∈ collection_id <$> collections →
  search store (query req) 3 = Returned results →
  length results < 3 →
  run channel_id req = Raised index_error.
Proof.
  intros Hstore Hcoll Hsearch Hlen.
  destruct (run_extension_eq _ _ _ _ Hstore Hcoll Hsearch) as [base_url ->].
  rewrite retrieved_documents_line_short; [done|]. by rewrite length_fmap.
Qed.

Lemma run_extension_results channel_id req store results :
  dict_get channel_id docs_store_dict = Some store →
  channel_id ∈ collection_id <$> collections →
  search store (query req) 3 = Returned results →
  (3 ≤ length results → ∃ docs, run channel_id req = Returned docs)
  ∧ ∀ docs, run channel_id req = Returned docs →
      length docs = length results
      ∧ score <$> docs = results.*2
      ∧ doc <$> docs = (page_content ∘ fst) <$> results.
Proof.
  intros Hstore Hcoll Hsearch.
  destruct (run_extension_eq _ _ _ _ Hstore Hcoll Hsearch) as [base_url ->].
  split.
  - intros Hlen.
    destruct (retrieved_documents_line_full (as_doc_with_score base_url <$> results))
      as [line ->]; [by rewrite length_fmap|]. cbn. eauto.
  - intros docs Hrun.
    destruct (retrieved_documents_line _) as [line|e]; [|done].
    cbn in Hrun. injection Hrun as <-.
    rewrite length_fmap, <- !list_fmap_compose. done.
Qed.
End Extension.

Lemma run_extension_short_results_witness :
  DocsExtension.run_extension manifest registry search_two "scikit-image" segment_request
  = Raised index_error.
Proof.
  apply (run_extension_short_results manifest registry search_two
           "scikit-image" segment_request small_store (take 2 ranked)).
  - reflexivity.
  - left.
  - reflexivity.
  - vm_compute. lia.
Defined.

(** * Retrieval with the fixed cutoff *)




(** * Further properties of the script sandbox *)

Section SandboxMore.
Import StartScript.
Implicit Types (w : World) (l : loc) (script : py_script) (context : option loc).

Lemma run_script_builtins script context w :
  builtins (run_script script context w).2 = builtins w.
Proof.
  destruct (run_script_cases script context w)
    as [(ns & w1 & Hat & ->)|(e & w1 & Heq & _)].
  - destruct Hat as (_ & _ & _ & _ & _ & _ & Hb & _).
    destruct script as [msg|body]; [done|].
    destruct (exec_body ns body w1) as [r w2] eqn:Hrun.
    apply exec_body_calls in Hrun as [_ ?]. cbn. congruence.
  - rewrite Heq. cbn.
    unfold run_script, mbind, Py_bind in Heq.
    destruct (sandbox_entry context w) as [[ns|e'] w0] eqn:Hentry.
    + apply sandbox_entry_spec in Hentry as (_ & _ & _ & _ & _ & _ & Hb & _).
      unfold exec, mbind, Py_bind in Heq.
      destruct (bind_builtins ns w0) as [[[]|e'] w2] eqn:Hbind.
      * apply bind_builtins_spec in Hbind as (_ & _ & _ & Hb' & _).
        destruct script as [msg|body].
        -- unfold py_raise in Heq. simplify_eq. congruence.
        -- destruct (exec_body ns body w2) as [r w3] eqn:Hrun.
           apply exec_body_calls in Hrun as [_ ?]. simplify_eq. congruence.
      * apply bind_builtins_spec in Hbind as (_ & _ & _ & Hb' & _).
        simplify_eq. congruence.
    + simplify_eq. rewrite sandbox_entry_eq in Hentry. unfold dict_copy, alloc in Hentry.
      assert (w1 = redirected (entry_context context w).2) as ->
        by (repeat case_match; by simplify_eq).
      by destruct context.
Qed.

(** X1.  What a script made of prints, writes to [sys.stderr],
    assignments, appends and raises writes is captured, not passed on:
    when the process's [sys.stdout] and [sys.stderr] are its own text
    streams, after [execute_code] they are again [sys.stdout] and
    [sys.stderr] and hold what they held before. *)
Theorem execute_code_captures script context w a b :
  plain script = true →
  heap w !! sys_stdout w = Some (OTextIO a) →
  heap w !! sys_stderr w = Some (OTextIO b) →
  let w' := (execute_code script context w).2 in
  heap w' !! sys_stdout w' = Some (OTextIO a)
  ∧ heap w' !! sys_stderr w' = Some (OTextIO b).
Proof.
  intros Hplain Hout Herr w'.
  assert (sys_stdout w' = sys_stdout w ∧ sys_stderr w' = sys_stderr w) as [-> ->].
  { unfold w'. by rewrite execute_code_world. }
  split; by apply execute_code_keeps.
Qed.

(** A script that writes to the process's own stream by another way
    than [print] is not captured. *)
Example execute_code_not_captured :
  heap (execute_code (Program [write_to 0 "3 models"]) None quiet_world).2 !! 0
  = Some (OTextIO "3 models").
Proof. vm_compute. reflexivity. Qed.

(** X2.  What a script assigns does not reach a later run.  After a
    run of a script made of prints, writes to [sys.stderr],
    assignments, appends and raises, a name that neither the caller's
    bindings nor the builtins hold is still undefined: a script that
    starts by reading it is reported with the [NameError] message. *)
Theorem execute_code_names_private body c w entries names x y rest :
  forallb named body = true →
  heap w !! c = Some (ODict entries) →
  entries !! x = None →
  entries !! "__builtins__" = None →
  heap w !! builtins w = Some (ODict names) →
  names !! x = None →
  x ≠ "__builtins__" →
  (execute_code (Program (SAssign y (EName x) :: rest)) (Some c)
     (execute_code (Program body) (Some c) w).2).1
  = Returned (mkResult "" ("name '" +:+ x +:+ "' is not defined")).
Proof.
  intros Hbody Hc Hx Hnb Hbs Hnx Hxb.
  set (w' := (execute_code (Program body) (Some c) w).2).
  assert (heap w' !! c = Some (ODict entries)) as Hc' by by apply execute_code_keeps.
  assert (heap w' !! builtins w = Some (ODict names)) as Hbs' by by apply execute_code_keeps.
  assert (builtins w' = builtins w) as Hb.
  { unfold w'. rewrite execute_code_world. apply run_script_builtins. }
  rewrite execute_code_result.
  destruct (run_script_start (Some c) w' entries Hc')
    as (ns & w1 & entries' & -> & Hat & _ & Hns & Hsame & Hbi).
  destruct Hat as (_ & _ & _ & _ & _ & _ & _ & Hframe).
  rewrite <- Hb in Hbs'. destruct (Hframe _ _ Hbs') as (Hbs1 & _).
  cbn [exec_body exec_stmt eval_expr]. unfold mbind, Py_bind, lookup_name.
  rewrite Hns, (Hsame x Hxb), Hx, Hbi, Hnb. cbn [default]. rewrite Hbs1, Hnx. done.
Qed.

(** X3.  A script that does not compile is reported, not raised: the
    result has an empty [stdout] and the syntax error's message as
    [stderr], and no object of the caller has changed. *)
Theorem execute_code_syntax_error msg context w :
  context_is_dict context w →
  (execute_code (Unparsable msg) context w).1 = Returned (mkResult "" msg)
  ∧ ∀ l o, heap w !! l = Some o →
      heap (execute_code (Unparsable msg) context w).2 !! l = Some o.
Proof.
  intros Hctx. split.
  - rewrite execute_code_result.
    destruct (context_is_dict_entries _ _ Hctx) as [entries Hentries].
    by destruct (run_script_start _ _ _ Hentries) as (ns & w1 & ? & -> & _).
  - intros l o Hl. apply execute_code_keeps; [done..|]. by destruct o.
Qed.
End SandboxMore.

(** * Further properties of the router *)

Section RouterMore.
Import StartScript.
Variable asimilarity_search : FAISS → string → nat → outcome (list Document).
Variable docs_store_dict : pydict FAISS.
Variable resource_items : loc.

Abbreviation respond' := (respond_to_user asimilarity_search docs_store_dict resource_items).




(** The script branch, around the call of [execute_code]. *)
Lemma respond_to_user_script q role w history script request user_info :
  chat_history q = Some history →
  aask_request role (classification_inputs q history)
    = Returned (ModelZooInfoScript script request user_info) →
  ∃ ctx w2,
    heap w2 !! ctx = Some (ODict {[ "resources" := VRef resource_items ]})
    ∧ (∀ l o, heap w !! l = Some o → heap w2 !! l = Some o)
    ∧ let run := execute_code script (Some ctx) w2 in
      heap (respond' q role w).2 = heap run.2
      ∧ sys_stdout (respond' q role w).2 = sys_stdout w
      ∧ sys_stderr (respond' q role w).2 = sys_stderr w
      ∧ (respond' q role w).1 =
        match run.1 with
        | Returned result =>
            synthesis_of_script role (stdout result) (stderr result) request user_info
        | Raised e => Raised e
        end
      ∧ calls (respond' q role w).2 =
        calls w ++ [LLMCall RequestUnion; ScriptRun script]
        ++ match run.1 with
           | Returned _ => [LLMCall FinalResponseSchema]
           | Raised _ => []
           end.
Proof.
  intros Hhist Hask.
  set (w0 := record_call (LLMCall RequestUnion) w).
  set (ctx := fresh (dom (heap w0))).
  set (w2 := record_call (ScriptRun script)
               (set_heap (<[ctx := ODict {[ "resources" := VRef resource_items ]}]> (heap w0))
                  w0)).
  exists ctx, w2. split; [apply lookup_insert_eq|]. split.
  { intros l o Hl. cbn. rewrite lookup_insert_ne; [done|].
    intros E. unfold ctx in E. rewrite <- E in Hl.
    by apply (fresh_not_allocated w0) in Hl. }
  assert (respond' q role w =
    (result ← execute_code script (Some ctx);
     log_call (LLMCall FinalResponseSchema);;
     response ← lift (aask_final role
                  (ModelZooInfoScriptResults (stdout result) (stderr result)
                     request user_info));
     mret (StartScript.response response)) w2) as ->.
  { unfold respond_to_user. rewrite Hhist. cbn [list_of_optional].
    unfold classification_inputs in Hask.
    unfold mbind at 1 2 3 4 5 6. unfold Py_bind at 1 2 3 4 5 6.
    unfold lift at 1 2, log_call at 1 2, alloc at 1. by rewrite Hask. }
  cbn zeta. unfold mbind, Py_bind, log_call, lift.
  assert (calls (execute_code script (Some ctx) w2).2
          = calls w ++ [LLMCall RequestUnion; ScriptRun script]) as Hcalls.
  { rewrite execute_code_world. unfold restore_streams, set_sys_stderr, set_sys_stdout.
    cbn [calls]. rewrite run_script_calls. cbn. by rewrite <- app_assoc. }
  assert (sys_stdout (execute_code script (Some ctx) w2).2 = sys_stdout w
          ∧ sys_stderr (execute_code script (Some ctx) w2).2 = sys_stderr w) as [Ho He].
  { by rewrite execute_code_world. }
  destruct (execute_code script (Some ctx) w2) as [[result|e] w3]; cbn [fst snd] in *.
  - unfold synthesis_of_script, mbind, outcome_bind.
    destruct (aask_final role _) as [final|e]; cbn [fst snd];
      (split_and!; [done..|]); cbn; rewrite Hcalls; by rewrite <- !app_assoc.
  - split_and!; [done..|]. by rewrite Hcalls, <- ?app_assoc.
Qed.
End RouterMore.

Section RouterExtras.
Import StartScript.
Variable asimilarity_search : FAISS → string → nat → outcome (list Document).
Variable docs_store_dict : pydict FAISS.
Variable resource_items : loc.

Abbreviation respond'' := (respond_to_user asimilarity_search docs_store_dict resource_items).

(** X4.  A script fault is not fatal to the request.  When the model
    asks for a script that prints and then raises an [Exception], the
    second call to the model is made with an empty [stdout] and the
    exception's message as [stderr], its answer is what
    [respond_to_user] gives, and the two streams are back in place. *)
Theorem respond_to_user_script_fault q role w history outs c msg rest request user_info :
  let script := Program ((SPrint <$> outs) ++ SRaise c msg :: rest) in
  chat_history q = Some history →
  aask_request role (classification_inputs q history)
    = Returned (ModelZooInfoScript script request user_info) →
  derives_Exception c = true →
  (respond'' q role w).1 = synthesis_of_script role "" msg request user_info
  ∧ calls (respond'' q role w).2
    = calls w ++ [LLMCall RequestUnion; ScriptRun script; LLMCall FinalResponseSchema]
  ∧ sys_stdout (respond'' q role w).2 = sys_stdout w
  ∧ sys_stderr (respond'' q role w).2 = sys_stderr w.
Proof.
  intros script Hhist Hask Hc. subst script.
  destruct (respond_to_user_script asimilarity_search docs_store_dict resource_items
              _ _ w _ _ _ _ Hhist Hask) as (ctx & w2 & Hctx & _ & _ & Ho & He & Hres & Hcalls).
  rewrite Hres, Hcalls, Ho, He.
  rewrite (execute_code_prints_then_raise (Some ctx) w2 outs c msg rest) by (cbn; eauto).
  rewrite Hc. done.
Qed.

(** X5.  A script that raises an exit request or an interrupt ends
    the request: [respond_to_user] raises it to its caller, the second
    call to the model is not made, and the two streams are back in
    place. *)
Theorem respond_to_user_script_exit q role w history outs c msg rest request user_info :
  let script := Program ((SPrint <$> outs) ++ SRaise c msg :: rest) in
  chat_history q = Some history →
  aask_request role (classification_inputs q history)
    = Returned (ModelZooInfoScript script request user_info) →
  derives_Exception c = false →
  (respond'' q role w).1 = Raised (PyExc c msg)
  ∧ calls (respond'' q role w).2 = calls w ++ [LLMCall RequestUnion; ScriptRun script]
  ∧ sys_stdout (respond'' q role w).2 = sys_stdout w
  ∧ sys_stderr (respond'' q role w).2 = sys_stderr w.
Proof.
  intros script Hhist Hask Hc. subst script.
  destruct (respond_to_user_script asimilarity_search docs_store_dict resource_items
              _ _ w _ _ _ _ Hhist Hask) as (ctx & w2 & Hctx & _ & _ & Ho & He & Hres & Hcalls).
  rewrite Hres, Hcalls, Ho, He.
  rewrite (execute_code_prints_then_raise (Some ctx) w2 outs c msg rest) by (cbn; eauto).
  rewrite Hc. by rewrite <- ?app_assoc.
Qed.


(** X9.  A retrieval for a channel the registry does not hold raises
    [KeyError] on the channel: no search is made and the model is not
    asked a second time. *)
Theorem respond_to_user_unknown_channel q role w history query request user_info database_id :
  chat_history q = Some history →
  aask_request role (classification_inputs q history)
    = Returned (DocumentRetrievalInput query request user_info database_id) →
  dict_get (opt_str_or (channel_id q) database_id) docs_store_dict = None →
  respond'' q role w
  = (Raised (PyExc KeyError ("'" +:+ opt_str_or (channel_id q) database_id +:+ "'")),
     record_call (RegistryLookup (opt_str_or (channel_id q) database_id))
       (record_call (LLMCall RequestUnion) w)).
Proof.
  intros Hhist Hask Hnone.
  rewrite (respond_to_user_retrieval _ _ _ _ _ _ _ _ _ _ _ Hhist Hask). cbn zeta.
  unfold mbind at 1. unfold Py_bind at 1. unfold lift at 1, dict_getitem.
  by rewrite Hnone.
Qed.

(** X10.  A failure of the similarity search is raised to the caller
    as it is: there is no retry and no second call to the model. *)
Theorem respond_to_user_search_failure q role w history query request user_info
    database_id store e :
  chat_history q = Some history →
  aask_request role (classification_inputs q history)
    = Returned (DocumentRetrievalInput query request user_info database_id) →
  dict_get (opt_str_or (channel_id q) database_id) docs_store_dict = Some store →
  asimilarity_search store query 3 = Raised e →
  (respond'' q role w).1 = Raised e
  ∧ calls (respond'' q role w).2
    = calls w ++ [LLMCall RequestUnion;
                  RegistryLookup (opt_str_or (channel_id q) database_id);
                  SimilaritySearch store query 3].
Proof.
  intros Hhist Hask Hstore Hsearch.
  rewrite (respond_to_user_retrieval _ _ _ _ _ _ _ _ _ _ _ Hhist Hask). cbn zeta.
  unfold mbind, Py_bind, lift, log_call, dict_getitem.
  rewrite Hstore, Hsearch. cbn. by rewrite <- !app_assoc.
Qed.

(** X11.  A request whose [chat_history] is [None], which the model
    class allows, raises [TypeError] before anything is asked of the
    language model. *)
Theorem respond_to_user_without_history q role w :
  chat_history q = None →
  respond_to_user asimilarity_search docs_store_dict resource_items q role w
  = (Raised (PyExc TypeError "'NoneType' object is not iterable"), w).
Proof.
  intros Hhist. unfold respond_to_user. by rewrite Hhist.
Qed.

(** X7.  The catalog is shared with the script: a script that starts
    with [resources.append(...)] and mutates nothing else leaves the
    list [resource_items], which later requests use, one item
    longer. *)
Theorem respond_to_user_catalog_shared q role w history s rest request user_info items :
  let script := Program (SAppend "resources" (EStr s) :: rest) in
  chat_history q = Some history →
  aask_request role (classification_inputs q history)
    = Returned (ModelZooInfoScript script request user_info) →
  mutation_free (Program rest) = true →
  heap w !! resource_items = Some (OList items) →
  heap (respond'' q role w).2 !! resource_items = Some (OList (items ++ [VStr s])).
Proof.
  intros script Hhist Hask Hfree Hitems. subst script.
  destruct (respond_to_user_script asimilarity_search docs_store_dict resource_items
              _ _ w _ _ _ _ Hhist Hask) as (ctx & w2 & Hctx & Hkeep & Hheap & _).
  rewrite Hheap, execute_code_world. apply Hkeep in Hitems.
  destruct (run_script_start (Some ctx) w2 _ Hctx)
    as (ns & w3 & entries' & -> & Hat & _ & Hns & Hsame & _).
  destruct Hat as (_ & _ & _ & _ & _ & _ & _ & Hframe).
  destruct (Hframe _ _ Hitems) as (Hitems3 & Hne & _).
  cbn [exec_body exec_stmt eval_expr restore_streams].
  unfold mbind, Py_bind, lookup_name.
  rewrite Hns, (Hsame "resources") by done. rewrite lookup_singleton_eq.
  unfold mret, Py_ret, list_append. rewrite Hitems3.
  match goal with |- context [exec_body ns rest ?w4] =>
    destruct (exec_body ns rest w4) as [r w5] eqn:Hrun end.
  assert (heap w5 !! resource_items = Some (OList (items ++ [VStr s]))) as H5.
  { eapply exec_body_frame; [exact Hrun| |].
    - cbn. apply lookup_insert_eq.
    - split; [|exact Hfree]. by apply (mutation_free_plain (Program rest)). }
  by destruct r.
Qed.

(** X8.  A script that mutates nothing in place, also one that
    re-assigns [resources], leaves the object [resource_items] as it
    was, however the run and the request end. *)
Theorem respond_to_user_catalog_kept q role w history script request user_info o :
  chat_history q = Some history →
  aask_request role (classification_inputs q history)
    = Returned (ModelZooInfoScript script request user_info) →
  mutation_free script = true →
  heap w !! resource_items = Some o →
  heap (respond'' q role w).2 !! resource_items = Some o.
Proof.
  intros Hhist Hask Hfree Hitems.
  destruct (respond_to_user_script asimilarity_search docs_store_dict resource_items
              _ _ w _ _ _ _ Hhist Hask) as (ctx & w2 & Hctx & Hkeep & Hheap & _).
  rewrite Hheap. apply Hkeep in Hitems.
  apply execute_code_keeps; [by apply mutation_free_plain|done|by destruct o].
Qed.
End RouterExtras.

(** * Further properties of the registry *)

Section DictMore.
Context {V : Type}.
Implicit Types (d : pydict V) (k : string) (v : V).

Lemma dict_set_fresh k v d : k ∉ d.*1 → dict_set k v d = d ++ [(k, v)].
Proof.
  induction d as [|[k0 v0] d IH]; cbn; intros Hk; [done|].
  apply not_elem_of_cons in Hk as [Hne Hk].
  rewrite decide_False by done. by rewrite IH.
Qed.

Lemma dict_comprehension_first_error (val : string → outcome V) pre x post acc e :
  (∀ k, k ∈ pre → is_Returned (val k) = true) →
  val x = Raised e →
  dict_comprehension (λ x, x) val (pre ++ x :: post) acc = Raised e.
Proof.
  revert acc. induction pre as [|y pre IH]; intros acc Hpre Hx; cbn.
  - by rewrite Hx.
  - destruct (val y) as [v|e'] eqn:Hy.
    + cbn. apply IH; [|done]. intros k Hk. apply Hpre. by right.
    + specialize (Hpre y). rewrite Hy in Hpre. discriminate Hpre. left.
Qed.

Lemma dict_comprehension_fresh (val : string → outcome V) (f : string → V) xs acc :
  NoDup (acc.*1 ++ xs) →
  (∀ x, x ∈ xs → val x = Returned (f x)) →
  dict_comprehension (λ x, x) val xs acc = Returned (acc ++ ((λ x, (x, f x)) <$> xs)).
Proof.
  revert acc. induction xs as [|x xs IH]; intros acc Hnd Hval; cbn.
  - by rewrite app_nil_r.
  - rewrite (Hval x) by left. cbn.
    apply NoDup_app in Hnd as (Hacc & Hdisj & Hxs).
    apply NoDup_cons in Hxs as [Hx Hxs].
    rewrite dict_set_fresh by (intros Hin; apply (Hdisj x Hin); left).
    rewrite IH.
    + by rewrite <- app_assoc.
    + rewrite fmap_app. cbn. rewrite <- app_assoc. cbn.
      apply NoDup_app. split_and!; [done| |by apply NoDup_cons].
      intros k Hk Hin. apply (Hdisj k Hk). done.
    + intros k Hk. apply Hval. by right.
Qed.

Lemma for_each_first_error {X} (body : X → outcome unit) pre x post e :
  (∀ y, y ∈ pre → body y = Returned tt) →
  body x = Raised e →
  for_each body (pre ++ x :: post) = Raised e.
Proof.
  induction pre as [|y pre IH]; intros Hpre Hx; cbn.
  - by rewrite Hx.
  - rewrite (Hpre y) by left. cbn. apply IH; [|done].
    intros z Hz. apply Hpre. by right.
Qed.

Lemma filter_none {X} (P : X → Prop) `{!∀ x, Decision (P x)} (l : list X) :
  (∀ x, x ∈ l → ¬ P x) → filter P l = [].
Proof.
  induction l as [|x l IH]; intros Hl; [done|].
  rewrite filter_cons_False by (apply Hl; left).
  apply IH. intros y Hy. apply Hl. by right.
Qed.

(** A dict filled from a list, looked up: the last item with the key. *)
Lemma dict_of_list_get {X} (key : X → string) (val : X → V) (xs : list X) acc k :
  dict_get k (fold_left (λ acc x, dict_set (key x) (val x) acc) xs acc)
  = match last (filter (λ x, key x = k) xs) with
    | Some x => Some (val x)
    | None => dict_get k acc
    end.
Proof.
  revert acc. induction xs as [|x xs IH]; intros acc; [done|].
  cbn [fold_left]. rewrite IH, dict_get_set, filter_cons.
  destruct (decide (key x = k)) as [Hk|Hk].
  - rewrite decide_True by done.
    destruct (filter _ xs) as [|y l] eqn:Hf; [done|].
    rewrite !last_cons. by destruct (last l).
  - rewrite decide_False by done. done.
Qed.
End DictMore.

Section RegistryMore.
Import StartScript.
Variable MANIFEST_collections : list Collection.
Variable DB_PATH : string.
Variable FAISS_load_local : string → string → outcome FAISS.

Abbreviation load' := (load_knowledge_base MANIFEST_collections DB_PATH FAISS_load_local).

(** X12.  When the index of a collection fails to load, and those of
    the collections before it in the manifest load, the loader's error
    is what [load_knowledge_base] raises. *)
Theorem load_knowledge_base_load_error pre c post e :
  MANIFEST_collections = pre ++ c :: post →
  (∀ c', c' ∈ pre → is_Returned (FAISS_load_local DB_PATH (collection_id c')) = true) →
  FAISS_load_local DB_PATH (collection_id c) = Raised e →
  load' = Raised e.
Proof.
  intros HM Hpre Hc.
  unfold load_knowledge_base, load_docs_store. rewrite HM, fmap_app. cbn [fmap list_fmap].
  rewrite (dict_comprehension_first_error _ _ _ _ _ e); [done| |done].
  intros k (c' & -> & Hin)%list_elem_of_fmap. by apply Hpre.
Qed.

(** X13.  With distinct collection ids and every index loading, the
    assertion error names the first collection of the manifest whose
    store is empty. *)
Theorem load_knowledge_base_names_empty_store (store_of : string → FAISS) pre c post :
  MANIFEST_collections = pre ++ c :: post →
  NoDup (collection_id <$> MANIFEST_collections) →
  (∀ c', c' ∈ MANIFEST_collections →
     FAISS_load_local DB_PATH (collection_id c') = Returned (store_of (collection_id c'))) →
  (∀ c', c' ∈ pre → size (docstore_dict (store_of (collection_id c'))) ≠ 0) →
  size (docstore_dict (store_of (collection_id c))) = 0 →
  load' = Raised (PyExc AssertionError
                    ("Please make sure the docs store " +:+ collection_id c
                     +:+ " is not empty.")).
Proof.
  intros HM Hnd Hload Hpre Hc.
  unfold load_knowledge_base, load_docs_store.
  rewrite (dict_comprehension_fresh _ store_of); [|done|].
  2:{ intros k (c' & -> & Hin)%list_elem_of_fmap. by apply Hload. }
  cbn [app mbind outcome_bind]. rewrite HM, !fmap_app. cbn [fmap list_fmap].
  rewrite (for_each_first_error _ _ _ _
             (PyExc AssertionError ("Please make sure the docs store " +:+ collection_id c
                                    +:+ " is not empty."))); [done| |].
  - intros [k s] (k' & [= -> ->] & (c' & -> & Hin)%list_elem_of_fmap)%list_elem_of_fmap.
    unfold py_assert. specialize (Hpre c' Hin).
    by destruct (size (docstore_dict (store_of (collection_id c')))).
  - unfold py_assert. by rewrite Hc.
Qed.
End RegistryMore.

(** * Further properties of the facade *)

Section FacadeMore.
Import StartScript.
Variable M : list Collection.
Variable handle : QuestionWithHistory → Py (list Message).

(** X14.  A channel name maps to the id of the last collection of the
    manifest that has this name, and to nothing when no collection has
    it. *)
Theorem channel_id_by_name_last name :
  dict_get name (channel_id_by_name M)
  = collection_id <$> last (filter (λ c, collection_name c = name) M).
Proof.
  unfold channel_id_by_name. rewrite dict_of_list_get.
  by destruct (last _).
Qed.

(** X15.  [chat] with a channel name that no collection has raises
    the assertion error listing the channel names, whatever the
    profile is, before the profile is parsed and before the dispatcher
    is called. *)
Theorem chat_unknown_channel text history user_profile channel w :
  channel_unknown M channel = true →
  chat M handle text history user_profile (Some channel) w
  = (Raised (unknown_channel_error M channel), w).
Proof.
  unfold channel_unknown. intros [Htruthy Hunknown%negb_true_iff]%andb_prop.
  apply bool_decide_eq_false in Hunknown.
  unfold chat, mbind, Py_bind, lift. rewrite Htruthy.
  unfold mbind, outcome_bind, py_assert.
  rewrite bool_decide_eq_false_2 by done. done.
Qed.

(** X16.  [chat] with the name of a collection hands the dispatcher
    the collection's id, with the parsed profile, and returns the
    content of the last message of the dispatcher's response
    ([IndexError] when there is none). *)
Theorem chat_passes_collection_id text history user_profile p pre c post w :
  M = pre ++ c :: post →
  (∀ c', c' ∈ post → collection_name c' ≠ collection_name c) →
  collection_name c ≠ "" →
  UserProfile_parse_obj user_profile = Returned p →
  chat M handle text history user_profile (Some (collection_name c)) w
  = (response ← handle (mkQuestionWithHistory text history (Some p)
                          (Some (collection_id c)));
     last ← lift (list_getitem_last response);
     mret (content last)) w.
Proof.
  intros HM Hpost Hname Hparse.
  assert (dict_get (collection_name c) (channel_id_by_name M) = Some (collection_id c))
    as Hget.
  { unfold channel_id_by_name. rewrite dict_of_list_get, HM, filter_app, filter_cons.
    rewrite decide_True by done.
    assert (filter (λ c', collection_name c' = collection_name c) post = []) as ->.
    { by apply filter_none. }
    by rewrite last_snoc. }
  assert (str_truthy (collection_name c) = true) as Htruthy.
  { unfold str_truthy. by destruct (String.eqb_spec (collection_name c) ""). }
  unfold chat. unfold mbind at 1 2. unfold Py_bind at 1 2. unfold lift at 1 2.
  rewrite Htruthy. unfold mbind at 1 2, outcome_bind at 1 2, py_assert, dict_getitem.
  rewrite Hget. rewrite bool_decide_eq_true_2 by eauto.
  cbn [mret outcome_ret]. by rewrite Hparse.
Qed.

(** X17.  An empty channel name is no channel: [chat] then calls the
    dispatcher with [channel_id] absent, as when the argument is
    omitted, and does not complain of an unknown channel. *)
Theorem chat_without_channel text history user_profile p channel w :
  channel = None ∨ channel = Some "" →
  UserProfile_parse_obj user_profile = Returned p →
  chat M handle text history user_profile channel w
  = (response ← handle (mkQuestionWithHistory text history (Some p) None);
     last ← lift (list_getitem_last response);
     mret (content last)) w.
Proof.
  intros [->| ->] Hparse; unfold chat; unfold mbind at 1 2; unfold Py_bind at 1 2;
    unfold lift at 1 2; cbn; by rewrite Hparse.
Qed.
End FacadeMore.

(** * Further properties of the documentation extension *)

Section SchemaNames.
Import DocsExtension.

Lemma str_replace_char_app old new a b :
  str_replace_char old new (a +:+ b)
  = str_replace_char old new a +:+ str_replace_char old new b.
Proof.
  induction a as [|x a IH]; [done|].
  change (String x a +:+ b) with (String x (a +:+ b)). cbn [str_replace_char].
  rewrite IH. done.
Qed.

Lemma str_replace_char_length old new s :
  String.length (str_replace_char old new s) = String.length s.
Proof. induction s as [|x s IH]; cbn; [done|by rewrite IH]. Qed.

Lemma str_replace_char_chars old new s :
  String.list_ascii_of_string (str_replace_char old new s)
  = (λ c, if Ascii.eqb c old then new else c) <$> String.list_ascii_of_string s.
Proof. induction s as [|x s IH]; cbn; [done|by rewrite IH]. Qed.

(** X18.  The name [get_schema] gives the model class has the length
    of the channel id and holds neither a dot nor a hyphen; an id
    without them is kept as it is. *)
Theorem get_schema_name_clean channel_id :
  String.length (get_schema channel_id) = String.length channel_id
  ∧ ("."%char ∉ String.list_ascii_of_string (get_schema channel_id))
  ∧ ("-"%char ∉ String.list_ascii_of_string (get_schema channel_id))
  ∧ (("."%char ∉ String.list_ascii_of_string channel_id) →
     ("-"%char ∉ String.list_ascii_of_string channel_id) →
     get_schema channel_id = channel_id).
Proof.
  unfold get_schema. split_and!.
  - by rewrite !str_replace_char_length.
  - rewrite !str_replace_char_chars, <- list_fmap_compose.
    intros (c & Hc & _)%list_elem_of_fmap. cbn in Hc.
    destruct (Ascii.eqb_spec c "."); cbn in Hc; [done|].
    destruct (Ascii.eqb_spec c "-"); done.
  - rewrite !str_replace_char_chars, <- list_fmap_compose.
    intros (c & Hc & _)%list_elem_of_fmap. cbn in Hc.
    destruct (Ascii.eqb_spec c "."); cbn in Hc; [done|].
    destruct (Ascii.eqb_spec c "-"); done.
  - induction channel_id as [|x s IH]; [done|]. cbn.
    intros [Hx Hs]%not_elem_of_cons [Hx' Hs']%not_elem_of_cons.
    destruct (Ascii.eqb_spec x "."); [done|].
    destruct (Ascii.eqb_spec x "-"); [done|].
    f_equal. by apply IH.
Qed.

(** X19.  Ids that differ only by a dot, a hyphen or an underscore at
    one place get the same class name. *)
Theorem get_schema_name_collision a b :
  get_schema (a +:+ "." +:+ b) = get_schema (a +:+ "_" +:+ b)
  ∧ get_schema (a +:+ "-" +:+ b) = get_schema (a +:+ "_" +:+ b).
Proof.
  unfold get_schema. by rewrite !str_replace_char_app.
Qed.
End SchemaNames.

Section ExtensionMore.
Import StartScript DocsExtension.
Variable collections : list Collection.
Variable docs_store_dict : pydict FAISS.
Variable search : FAISS → string → nat → outcome (list (Document * Q)).

Abbreviation run' := (run_extension collections docs_store_dict search).

Lemma collection_info_last channel_id :
  dict_get channel_id
    (fold_left (λ acc collection, dict_set (collection_id collection) collection acc)
       collections [])
  = last (filter (λ c, collection_id c = channel_id) collections).
Proof.
  rewrite (dict_of_list_get collection_id (λ c, c)). by destruct (last _).
Qed.

(** X20.  [run_extension] on a channel that the registry or the
    manifest does not hold raises [KeyError] on the channel. *)
Theorem run_extension_unknown_channel channel_id req :
  (dict_get channel_id docs_store_dict = None
   ∨ channel_id ∉ collection_id <$> collections) →
  run' channel_id req = Raised (PyExc KeyError ("'" +:+ channel_id +:+ "'")).
Proof.
  intros Hmiss. unfold run_extension, dict_getitem.
  destruct (dict_get channel_id docs_store_dict) as [store|] eqn:Hstore; [|done].
  destruct Hmiss as [?|Hmiss]; [done|]. cbn [mbind outcome_bind].
  rewrite collection_info_last.
  destruct (last _) as [c|] eqn:Hlast; [|done].
  exfalso. apply Hmiss. apply last_Some_elem_of, list_elem_of_filter in Hlast as [<- Hin].
  apply list_elem_of_fmap. eauto.
Qed.

(** X21.  [run_extension] raises a failure of the search as it
    is. *)
Theorem run_extension_search_failure channel_id req store e :
  dict_get channel_id docs_store_dict = Some store →
  channel_id ∈ collection_id <$> collections →
  search store (query req) 3 = Raised e →
  run' channel_id req = Raised e.
Proof.
  intros Hstore Hin Hsearch. unfold run_extension, dict_getitem.
  rewrite Hstore. cbn [mbind outcome_bind]. rewrite collection_info_last.
  destruct (last _) as [c|] eqn:Hlast.
  - cbn [mbind outcome_bind]. by rewrite Hsearch.
  - apply last_None in Hlast.
    apply list_elem_of_fmap in Hin as (c & -> & Hc).
    assert (c ∈ filter (λ c', collection_id c' = collection_id c) collections) as Hf.
    { by apply list_elem_of_filter. }
    rewrite Hlast in Hf. by apply elem_of_nil in Hf.
Qed.

(** X22.  When the search gives at least three results,
    [run_extension] returns one document per result, in order, each
    with the [base_url] of the last collection of the manifest that has
    the channel's id. *)
Theorem run_extension_base_url channel_id req store results pre c post :
  collections = pre ++ c :: post →
  collection_id c = channel_id →
  (∀ c', c' ∈ post → collection_id c' ≠ channel_id) →
  dict_get channel_id docs_store_dict = Some store →
  search store (query req) 3 = Returned results →
  3 ≤ length results →
  run' channel_id req
  = Returned (as_doc_with_score (collection_base_url c) <$> results).
Proof.
  intros Hcoll Hid Hpost Hstore Hsearch Hlen. unfold run_extension, dict_getitem.
  rewrite Hstore. cbn [mbind outcome_bind]. rewrite collection_info_last.
  rewrite Hcoll, filter_app, filter_cons, decide_True by done.
  rewrite (filter_none _ post) by done. rewrite last_snoc.
  cbn [mbind outcome_bind]. rewrite Hsearch. cbn [mbind outcome_bind].
  assert ((λ '(doc, score), mkDocWithScore (page_content doc) score
                              (Langchain.metadata doc) (collection_base_url c))
          <$> results = as_doc_with_score (collection_base_url c) <$> results) as ->.
  { apply list_fmap_ext. by intros ? [doc score]. }
  destruct (retrieved_documents_line_full (as_doc_with_score (collection_base_url c)
                                             <$> results)) as [line ->];
    [by rewrite length_fmap|]. done.
Qed.

(** X23.  Every extension [get_extensions] builds carries the class
    name of its collection id and, executed, resolves its own
    collection in the manifest: with a store registered under its name
    and three search results it returns these three documents. *)
Theorem get_extensions_execute ext req store results :
  ext ∈ get_extensions collections docs_store_dict search →
  dict_get (extension_name ext) docs_store_dict = Some store →
  search store (query req) 3 = Returned results →
  length results = 3 →
  extension_get_schema ext = get_schema (extension_name ext)
  ∧ ∃ docs, extension_execute ext req = Returned docs
            ∧ length docs = 3
            ∧ score <$> docs = results.*2
            ∧ doc <$> docs = (page_content ∘ fst) <$> results.
Proof.
  intros (c & -> & Hc)%list_elem_of_fmap Hstore Hsearch Hlen. cbn in *.
  split; [done|].
  assert (collection_id c ∈ collection_id <$> collections) as Hin.
  { apply list_elem_of_fmap. eauto. }
  destruct (run_extension_results collections docs_store_dict search _ _ _ _
              Hstore Hin Hsearch) as [Hret Hdocs].
  destruct Hret as [docs Hrun]; [lia|].
  exists docs. split; [done|].
  destruct (Hdocs docs Hrun) as (Hl & Hs & Ht). split_and!; [lia|done..].
Qed.

End ExtensionMore.

(** * The further properties at concrete inputs *)

Lemma execute_code_captures_witness :
  let w' := (StartScript.execute_code (Program [SPrint "3 models"; SWriteErr "deprecated"])
               None quiet_world).2 in
  heap w' !! sys_stdout w' = Some (OTextIO "")
  ∧ heap w' !! sys_stderr w' = Some (OTextIO "").
Proof.
  exact (execute_code_captures (Program [SPrint "3 models"; SWriteErr "deprecated"])
           None quiet_world "" "" eq_refl eq_refl eq_refl).
Defined.

Lemma execute_code_names_private_witness :
  (StartScript.execute_code (Program [SAssign "n" (EName "total")]) (Some 2)
     (StartScript.execute_code (Program [SAssign "total" (EInt 3)]) (Some 2)
        catalog_world).2).1
  = Returned (StartScript.mkResult "" ("name '" +:+ "total" +:+ "' is not defined")).
Proof.
  apply (execute_code_names_private [SAssign "total" (EInt 3)] 2 catalog_world
           {[ "resources" := VRef 3 ]} builtin_names "total" "n" []); by vm_compute.
Defined.

Lemma execute_code_syntax_error_witness :
  (StartScript.execute_code (Unparsable "invalid syntax (<string>, line 1)") (Some 2)
     catalog_world).1
  = Returned (StartScript.mkResult "" "invalid syntax (<string>, line 1)").
Proof.
  apply (execute_code_syntax_error "invalid syntax (<string>, line 1)" (Some 2)
           catalog_world).
  eexists. reflexivity.
Defined.

Lemma respond_to_user_script_fault_witness :
  (StartScript.respond_to_user search_docs registry 3 count_question
     (script_role (Program ((SPrint <$> ["counting"]) ++ SRaise ValueError "boom" :: [])))
     catalog_world).1
  = Returned "boom".
Proof.
  destruct (respond_to_user_script_fault search_docs registry 3 count_question
              (script_role (Program ((SPrint <$> ["counting"])
                                     ++ SRaise ValueError "boom" :: [])))
              catalog_world [] ["counting"] ValueError "boom" []
              "How many models are there?" "" eq_refl eq_refl eq_refl) as [Hres _].
  exact Hres.
Defined.

Lemma respond_to_user_script_exit_witness :
  (StartScript.respond_to_user search_docs registry 3 count_question
     (script_role (Program ((SPrint <$> ["counting"]) ++ SRaise SystemExit "" :: [])))
     catalog_world).1
  = Raised (PyExc SystemExit "").
Proof.
  destruct (respond_to_user_script_exit search_docs registry 3 count_question
              (script_role (Program ((SPrint <$> ["counting"])
                                     ++ SRaise SystemExit "" :: [])))
              catalog_world [] ["counting"] SystemExit "" []
              "How many models are there?" "" eq_refl eq_refl eq_refl) as [Hres _].
  exact Hres.
Defined.


Lemma respond_to_user_unknown_channel_witness :
  (StartScript.respond_to_user search_docs [("scikit-image", small_store)] 3
     (segment_question None) retrieval_role catalog_world).1
  = Raised (PyExc KeyError "'bioimage.io'").
Proof.
  rewrite (respond_to_user_unknown_channel search_docs [("scikit-image", small_store)] 3
             (segment_question None) retrieval_role catalog_world []
             "segment" "How to segment?" "" "bioimage.io" eq_refl eq_refl eq_refl).
  reflexivity.
Defined.

Lemma respond_to_user_search_failure_witness :
  (StartScript.respond_to_user search_unavailable registry 3
     (segment_question None) retrieval_role catalog_world).1
  = Raised (PyExc ValueError "index unavailable").
Proof.
  destruct (respond_to_user_search_failure search_unavailable registry 3
              (segment_question None) retrieval_role catalog_world []
              "segment" "How to segment?" "" "bioimage.io" small_store
              (PyExc ValueError "index unavailable") eq_refl eq_refl eq_refl eq_refl)
    as [Hres _].
  exact Hres.
Defined.

Lemma respond_to_user_without_history_witness :
  StartScript.respond_to_user search_docs registry 3
    (StartScript.mkQuestionWithHistory "How can I segment a cell image?" None None None)
    retrieval_role catalog_world
  = (Raised (PyExc TypeError "'NoneType' object is not iterable"), catalog_world).
Proof.
  exact (respond_to_user_without_history search_docs registry 3
           (StartScript.mkQuestionWithHistory "How can I segment a cell image?"
              None None None)
           retrieval_role catalog_world eq_refl).
Defined.

Lemma respond_to_user_catalog_shared_witness :
  heap (StartScript.respond_to_user search_docs registry 3 count_question
          (script_role (Program (SAppend "resources" (EStr "x") :: [SPrint "done"])))
          catalog_world).2 !! 3
  = Some (OList ([VStr "model"] ++ [VStr "x"])).
Proof.
  exact (respond_to_user_catalog_shared search_docs registry 3 count_question
           (script_role (Program (SAppend "resources" (EStr "x") :: [SPrint "done"])))
           catalog_world [] "x" [SPrint "done"] "How many models are there?" ""
           [VStr "model"] eq_refl eq_refl eq_refl eq_refl).
Defined.

Lemma respond_to_user_catalog_kept_witness :
  heap (StartScript.respond_to_user search_docs registry 3 count_question
          (script_role (Program [SAssign "resources" ENewList; SPrint "0 models"]))
          catalog_world).2 !! 3
  = Some (OList [VStr "model"]).
Proof.
  exact (respond_to_user_catalog_kept search_docs registry 3 count_question
           (script_role (Program [SAssign "resources" ENewList; SPrint "0 models"]))
           catalog_world [] (Program [SAssign "resources" ENewList; SPrint "0 models"])
           "How many models are there?" "" (OList [VStr "model"])
           eq_refl eq_refl eq_refl eq_refl).
Defined.

Lemma manifest_cases (P : StartScript.Collection → Prop) :
  P (StartScript.mkCollection "scikit-image" "scikit-image" "image processing in Python" None) →
  P (StartScript.mkCollection "bioimage.io" "bioimage.io" "the model zoo"
       (Some "https://bioimage.io/docs")) →
  ∀ c, c ∈ manifest → P c.
Proof.
  intros H1 H2 c Hc. unfold manifest in Hc.
  apply elem_of_cons in Hc as [->|Hc]; [done|].
  apply elem_of_cons in Hc as [->|Hc]; [done|].
  by apply elem_of_nil in Hc.
Qed.

Lemma load_knowledge_base_load_error_witness :
  StartScript.load_knowledge_base manifest "docs/knowledge-base" load_one_missing
  = Raised (PyExc ValueError "could not open bioimage.io.faiss").
Proof.
  apply (load_knowledge_base_load_error manifest "docs/knowledge-base" load_one_missing
           [StartScript.mkCollection "scikit-image" "scikit-image"
              "image processing in Python" None]
           (StartScript.mkCollection "bioimage.io" "bioimage.io" "the model zoo"
              (Some "https://bioimage.io/docs"))
           []).
  - reflexivity.
  - intros c' Hc'. apply elem_of_cons in Hc' as [->|Hc']; [reflexivity|].
    by apply elem_of_nil in Hc'.
  - reflexivity.
Defined.

Lemma load_knowledge_base_names_empty_store_witness :
  StartScript.load_knowledge_base manifest "docs/knowledge-base" load_one_empty
  = Raised (PyExc AssertionError
              ("Please make sure the docs store " +:+ "bioimage.io" +:+ " is not empty.")).
Proof.
  apply (load_knowledge_base_names_empty_store manifest "docs/knowledge-base"
           load_one_empty store_by_id
           [StartScript.mkCollection "scikit-image" "scikit-image"
              "image processing in Python" None]
           (StartScript.mkCollection "bioimage.io" "bioimage.io" "the model zoo"
              (Some "https://bioimage.io/docs"))
           []).
  - reflexivity.
  - apply (bool_decide_unpack _). by vm_compute.
  - apply manifest_cases; reflexivity.
  - intros c' Hc'. apply elem_of_cons in Hc' as [->|Hc']; [by vm_compute|].
    by apply elem_of_nil in Hc'.
  - reflexivity.
Defined.

Lemma chat_unknown_channel_witness :
  StartScript.chat manifest echo_handle "How can I segment a cell image?" (Some [])
    (Some lulu) (Some "napari") quiet_world
  = (Raised (unknown_channel_error manifest "napari"), quiet_world).
Proof.
  exact (chat_unknown_channel manifest echo_handle "How can I segment a cell image?"
           (Some []) (Some lulu) "napari" quiet_world eq_refl).
Defined.

Lemma chat_passes_collection_id_witness :
  StartScript.chat named_manifest
    (λ m, mret [StartScript.mkMessage (default "" (StartScript.channel_id m))])
    "How can I segment a cell image?" (Some []) (Some lulu) (Some "Scikit Image")
    quiet_world
  = (Returned "scikit-image", quiet_world).
Proof.
  rewrite (chat_passes_collection_id named_manifest
             (λ m, mret [StartScript.mkMessage (default "" (StartScript.channel_id m))])
             "How can I segment a cell image?" (Some []) (Some lulu)
             (StartScript.mkUserProfile "lulu" "data scientist" "machine learning and AI")
             []
             (StartScript.mkCollection "scikit-image" "Scikit Image"
                "image processing in Python" None)
             [StartScript.mkCollection "bioimage.io" "BioImage Model Zoo" "the model zoo"
                (Some "https://bioimage.io/docs")]
             quiet_world).
  - reflexivity.
  - reflexivity.
  - intros c' Hc'. apply elem_of_cons in Hc' as [->|Hc']; [by vm_compute|].
    by apply elem_of_nil in Hc'.
  - by vm_compute.
  - reflexivity.
Defined.

Lemma chat_without_channel_witness :
  StartScript.chat manifest
    (λ m, mret [StartScript.mkMessage (default "no channel" (StartScript.channel_id m))])
    "What is 2+2?" (Some []) (Some lulu) (Some "") quiet_world
  = (Returned "no channel", quiet_world).
Proof.
  rewrite (chat_without_channel manifest
             (λ m, mret [StartScript.mkMessage
                           (default "no channel" (StartScript.channel_id m))])
             "What is 2+2?" (Some []) (Some lulu)
             (StartScript.mkUserProfile "lulu" "data scientist" "machine learning and AI")
             (Some "") quiet_world).
  - reflexivity.
  - by right.
  - reflexivity.
Defined.

Lemma get_schema_name_clean_witness :
  DocsExtension.get_schema "imagej" = "imagej"
  ∧ String.length (DocsExtension.get_schema "bioimage.io") = 11.
Proof.
  split.
  - destruct (get_schema_name_clean "imagej") as (_ & _ & _ & Hsame).
    apply Hsame; apply (bool_decide_unpack _); by vm_compute.
  - destruct (get_schema_name_clean "bioimage.io") as (Hlen & _).
    exact Hlen.
Defined.

Lemma run_extension_unknown_channel_witness :
  DocsExtension.run_extension manifest registry search_ranked "napari" segment_request
  = Raised (PyExc KeyError ("'" +:+ "napari" +:+ "'")).
Proof.
  apply (run_extension_unknown_channel manifest registry search_ranked "napari"
           segment_request).
  left. reflexivity.
Defined.

Lemma run_extension_search_failure_witness :
  DocsExtension.run_extension manifest registry scored_search_unavailable
    "scikit-image" segment_request
  = Raised (PyExc ValueError "index unavailable").
Proof.
  apply (run_extension_search_failure manifest registry scored_search_unavailable
           "scikit-image" segment_request small_store).
  - reflexivity.
  - left.
  - reflexivity.
Defined.

Lemma run_extension_base_url_witness :
  DocsExtension.run_extension manifest registry search_ranked "bioimage.io" segment_request
  = Returned (as_doc_with_score (Some "https://bioimage.io/docs") <$> take 3 ranked).
Proof.
  apply (run_extension_base_url manifest registry search_ranked "bioimage.io"
           segment_request small_store (take 3 ranked)
           [StartScript.mkCollection "scikit-image" "scikit-image"
              "image processing in Python" None]
           (StartScript.mkCollection "bioimage.io" "bioimage.io" "the model zoo"
              (Some "https://bioimage.io/docs"))
           []).
  - reflexivity.
  - reflexivity.
  - intros c' Hc'. by apply elem_of_nil in Hc'.
  - reflexivity.
  - reflexivity.
  - vm_compute. lia.
Defined.

Lemma get_extensions_execute_witness :
  ∃ ext docs,
    DocsExtension.get_extensions manifest registry search_ranked !! 0 = Some ext
    ∧ DocsExtension.extension_execute ext segment_request = Returned docs
    ∧ length docs = 3.
Proof.
  set (ext := DocsExtension.mkChatbotExtension "scikit-image" "image processing in Python"
                (DocsExtension.get_schema "scikit-image")
                (DocsExtension.run_extension manifest registry search_ranked
                   "scikit-image")).
  destruct (get_extensions_execute manifest registry search_ranked ext segment_request
              small_store (take 3 ranked)) as (_ & docs & Hrun & Hlen & _).
  - left.
  - reflexivity.
  - reflexivity.
  - reflexivity.
  - exists ext, docs. split; [reflexivity|]. split; [exact Hrun|exact Hlen].
Defined.
